(** * UnleashedJS C runtime (ujs.c): the reference-counted JSObject handle

    A shallow embedding of [src/handlers/unleashedjs/ujs.c]: the C heap
    with [malloc] and [free], the [JSObject] structure and its four
    operations, the demo routine, the arithmetic dispatcher and the
    cycle-counter reader, followed by the properties of that code. *)

From Stdlib Require Import ZArith NArith Lia Strings.Byte Strings.String PrimFloat.
From Stdlib Require Import FloatOps FloatAxioms.
From stdpp Require Import base gmap list.

(** ** Machine integers *)

(** [int] is 32 bits wide, in two's complement.  ISO C leaves the overflow
    of [obj->ref_count++] undefined; the targets this file is built for
    (GCC or Clang on x86_64 and arm64) wrap around, which is written out
    here. *)
Definition INT_MAX : Z := 2 ^ 31 - 1.
Definition INT_MIN : Z := - 2 ^ 31.
Definition wrap_int (z : Z) : Z := ((z + 2 ^ 31) mod 2 ^ 32 - 2 ^ 31)%Z.
Definition in_int (z : Z) : Prop := (INT_MIN <= z <= INT_MAX)%Z.

(** [uint32_t] and [uint64_t]. *)
Definition wrap_uint32 (z : Z) : Z := (z mod 2 ^ 32)%Z.
Definition wrap_uint64 (z : Z) : Z := (z mod 2 ^ 64)%Z.

(** ** Pointers, blocks and the heap *)

Abbreviation loc := positive (only parsing).

(** A pointer is null, the address of a heap block, or the address of a
    string literal of the program (static storage), given by its
    characters. *)
Inductive ptr : Type :=
  | NULL
  | HeapPtr (l : loc)
  | StrLit (s : list byte).

Definition is_null (p : ptr) : bool :=
  match p with NULL => true | _ => false end.

(** [typedef struct { int ref_count; char* data; size_t size; } JSObject;]
    A field of a freshly allocated structure is indeterminate until it is
    assigned: [None]. *)
Record JSObject : Type := mkJSObject {
  ref_count : option Z;
  data : option ptr;
  size : option Z
}.

Definition set_ref_count (v : Z) (o : JSObject) : JSObject :=
  mkJSObject (Some v) (data o) (size o).
Definition set_data (v : ptr) (o : JSObject) : JSObject :=
  mkJSObject (ref_count o) (Some v) (size o).
Definition set_size (v : Z) (o : JSObject) : JSObject :=
  mkJSObject (ref_count o) (data o) (Some v).

(** A heap block holds a [JSObject] or an array of [char]; a cell of a
    fresh array is indeterminate ([None]) until it is written. *)
Inductive block : Type :=
  | BObj (o : JSObject)
  | BBytes (cells : list (option byte)).

(** The memory: the allocated blocks, and the coming answers of the
    allocator ([false]: the next [malloc] returns a null pointer; an
    exhausted list means success). *)
Record state : Type := mkState {
  heap : gmap positive block;
  oracle : list bool
}.

(** ** Runs: result, final memory and history *)

(** What [malloc] is asked for: [sizeof(JSObject)] or a number of bytes. *)
Inductive request : Type :=
  | ReqJSObject
  | ReqBytes (n : Z).

Inductive call : Type :=
  | CallCreate (s : list byte)
  | CallRetain (obj : ptr)
  | CallRelease (obj : ptr)
  | CallGetData (obj : ptr).

(** The history of a run, in program order: the handle operations entered
    and the calls made to the allocator with their answer. *)
Inductive event : Type :=
  | EvCall (c : call)
  | EvMalloc (r : request) (p : ptr)
  | EvFree (p : ptr).

(** Behaviours C leaves undefined and this code can reach. *)
Inductive ub : Type :=
  | BadDeref (p : ptr)
  | UninitRead (p : ptr)
  | BadFree (p : ptr)
  | OutOfBounds.

Inductive outcome (A : Type) : Type :=
  | Ok (a : A) (st : state) (tr : list event)
  | Undefined (u : ub).
Arguments Ok {A} a st tr.
Arguments Undefined {A} u.

Definition M (A : Type) : Type := state -> outcome A.

Definition ret {A} (a : A) : M A := fun st => Ok a st [].

Definition bind {A B} (m : M A) (f : A -> M B) : M B := fun st =>
  match m st with
  | Ok a st1 t1 =>
      match f a st1 with
      | Ok b st2 t2 => Ok b st2 (t1 ++ t2)
      | Undefined u => Undefined u
      end
  | Undefined u => Undefined u
  end.

Definition undefined {A} (u : ub) : M A := fun _ => Undefined u.

Definition emit (e : event) : M unit := fun st => Ok tt st [e].

Declare Scope run_scope.
Delimit Scope run_scope with run.
Notation "x <- m ;; k" := (bind m (fun x => k))
  (at level 100, m at next level, right associativity) : run_scope.
Notation "m ;; k" := (bind m (fun _ => k))
  (at level 100, right associativity) : run_scope.
Local Open Scope run_scope.

(** ** The allocator *)

Definition fresh_block (r : request) : block :=
  match r with
  | ReqJSObject => BObj (mkJSObject None None None)
  | ReqBytes n => BBytes (replicate (Z.to_nat n) None)
  end.

Definition malloc (r : request) : M ptr := fun st =>
  if hd true (oracle st) then
    let l := fresh (dom (heap st)) in
    Ok (HeapPtr l)
       (mkState (<[l := fresh_block r]> (heap st)) (tail (oracle st)))
       [EvMalloc r (HeapPtr l)]
  else
    Ok NULL (mkState (heap st) (tail (oracle st))) [EvMalloc r NULL].

(** [free(NULL)] does nothing; freeing anything but a live heap block is
    undefined. *)
Definition free (p : ptr) : M unit := fun st =>
  match p with
  | NULL => Ok tt st [EvFree NULL]
  | HeapPtr l =>
      match heap st !! l with
      | Some _ => Ok tt (mkState (delete l (heap st)) (oracle st)) [EvFree p]
      | None => Undefined (BadFree p)
      end
  | StrLit _ => Undefined (BadFree p)
  end.

(** ** Access to the structure through a [JSObject*] *)

Definition load_obj (p : ptr) : M JSObject := fun st =>
  match p with
  | HeapPtr l =>
      match heap st !! l with
      | Some (BObj o) => Ok o st []
      | _ => Undefined (BadDeref p)
      end
  | _ => Undefined (BadDeref p)
  end.

Definition store_obj (p : ptr) (o : JSObject) : M unit := fun st =>
  match p with
  | HeapPtr l =>
      match heap st !! l with
      | Some (BObj _) =>
          Ok tt (mkState (<[l := BObj o]> (heap st)) (oracle st)) []
      | _ => Undefined (BadDeref p)
      end
  | _ => Undefined (BadDeref p)
  end.

Definition load_field {A} (f : JSObject -> option A) (p : ptr) : M A :=
  o <- load_obj p ;;
  match f o with
  | Some v => ret v
  | None => undefined (UninitRead p)
  end.

Definition store_field (upd : JSObject -> JSObject) (p : ptr) : M unit :=
  o <- load_obj p ;; store_obj p (upd o).

Definition load_ref_count : ptr -> M Z := load_field ref_count.
Definition load_data : ptr -> M ptr := load_field data.
Definition load_size : ptr -> M Z := load_field size.
Definition store_ref_count (p : ptr) (v : Z) : M unit :=
  store_field (set_ref_count v) p.
Definition store_data (p : ptr) (v : ptr) : M unit :=
  store_field (set_data v) p.
Definition store_size (p : ptr) (v : Z) : M unit :=
  store_field (set_size v) p.

(** ** C strings *)

(** The argument of [strlen] and [strcpy] is the caller's array, from the
    address passed on.  [strlen] counts the characters before the first
    zero byte; running off the array is undefined. *)
Fixpoint c_strlen (s : list byte) : option Z :=
  match s with
  | [] => None
  | b :: r => if Byte.eqb b x00 then Some 0%Z else Z.succ <$> c_strlen r
  end.

Definition strlen (s : list byte) : M Z :=
  match c_strlen s with
  | Some n => ret n
  | None => undefined OutOfBounds
  end.

(** [strcpy] copies the characters up to and including the terminator. *)
Definition strcpy (dst : ptr) (src : list byte) : M unit :=
  n <- strlen src ;;
  fun st =>
    match dst with
    | HeapPtr l =>
        match heap st !! l with
        | Some (BBytes cells) =>
            if (n + 1 <=? Z.of_nat (length cells))%Z then
              Ok tt
                 (mkState
                    (<[l := BBytes ((Some <$> take (Z.to_nat (n + 1)) src)
                                      ++ drop (Z.to_nat (n + 1)) cells)]>
                       (heap st))
                    (oracle st))
                 []
            else Undefined OutOfBounds
        | _ => Undefined (BadDeref dst)
        end
    | _ => Undefined (BadDeref dst)
    end.

(** The array a caller passes for the byte sequence [d]: [d] followed by
    the terminator. *)
Definition c_string (d : list byte) : list byte := d ++ [x00].

(** The characters of [d] before its first zero byte. *)
Fixpoint until_nul (d : list byte) : list byte :=
  match d with
  | [] => []
  | b :: r => if Byte.eqb b x00 then [] else b :: until_nul r
  end.

Definition nul_free (d : list byte) : Prop := x00 ∉ d.

(** Reading the string stored in an array of cells: the characters before
    the first zero; nothing when an indeterminate cell or the end of the
    array comes first. *)
Fixpoint read_cells (cells : list (option byte)) : option (list byte) :=
  match cells with
  | Some b :: r =>
      if Byte.eqb b x00 then Some [] else cons b <$> read_cells r
  | _ => None
  end.

(** The string a [const char*] points to in a memory. *)
Definition c_str (st : state) (p : ptr) : option (list byte) :=
  match p with
  | NULL => None
  | HeapPtr l =>
      match heap st !! l with
      | Some (BBytes cells) => read_cells cells
      | _ => None
      end
  | StrLit s => read_cells (Some <$> c_string s)
  end.

(** ** The four operations *)

Definition create_js_object (data : list byte) : M ptr :=
  emit (EvCall (CallCreate data)) ;;
  obj <- malloc ReqJSObject ;;
  if is_null obj then ret NULL
  else
    store_ref_count obj 1 ;;
    len <- strlen data ;;
    store_size obj (len + 1) ;;
    sz <- load_size obj ;;
    buf <- malloc (ReqBytes sz) ;;
    store_data obj buf ;;
    d <- load_data obj ;;
    (if is_null d then ret tt else strcpy d data) ;;
    ret obj.

Definition retain_js_object (obj : ptr) : M unit :=
  emit (EvCall (CallRetain obj)) ;;
  if is_null obj then ret tt
  else
    c <- load_ref_count obj ;;
    store_ref_count obj (wrap_int (c + 1)).

Definition release_js_object (obj : ptr) : M unit :=
  emit (EvCall (CallRelease obj)) ;;
  if is_null obj then ret tt
  else
    c <- load_ref_count obj ;;
    store_ref_count obj (wrap_int (c - 1)) ;;
    c' <- load_ref_count obj ;;
    if (c' =? 0)%Z then
      d <- load_data obj ;;
      free d ;;
      free obj
    else ret tt.

Definition null_literal : list byte := list_byte_of_string "null".

Definition js_object_get_data (obj : ptr) : M ptr :=
  emit (EvCall (CallGetData obj)) ;;
  if is_null obj then ret (StrLit null_literal)
  else load_data obj.

(** [n] calls of one operation in a row. *)
Definition times (n : N) (op : M unit) : M unit :=
  N.iter n (fun k => op ;; k) (ret tt).

(** ** The demo routine *)

Definition demo_literal : list byte :=
  c_string (list_byte_of_string "JavaScript object managed by C!").

Definition perform_low_level_demo : M Z :=
  jsObj <- create_js_object demo_literal ;;
  if is_null jsObj then ret (-1)%Z
  else
    retain_js_object jsObj ;;
    retain_js_object jsObj ;;
    release_js_object jsObj ;;
    release_js_object jsObj ;;
    release_js_object jsObj ;;
    ret 0%Z.

(** ** Arithmetic dispatcher and cycle counter *)

(** [double] is IEEE 754 binary64; [b != 0] is the IEEE comparison (false
    for both zeros, true for a NaN), and the [int] constant 0 converts to
    positive zero. *)
Definition fast_math_operation (a b : float) (operation : Z) : float :=
  match operation with
  | 0%Z => (a + b)%float
  | 1%Z => (a - b)%float
  | 2%Z => (a * b)%float
  | 3%Z => if negb (b =? 0)%float then (a / b)%float else 0%float
  | _ => 0%float
  end.

(** The build target selected by the preprocessor. *)
Inductive arch : Type := X86_64 | Aarch64 | OtherArch.

(** [rdtsc] leaves the counter in [edx:eax]; they are inputs here.  The
    function touches no memory and calls nothing. *)
Definition get_cpu_cycles (a : arch) (eax edx : Z) : M Z :=
  match a with
  | X86_64 =>
      let lo := wrap_uint32 eax in
      let hi := wrap_uint32 edx in
      ret (Z.lor (wrap_uint64 lo) (wrap_uint64 (Z.shiftl (wrap_uint64 hi) 32)))
  | _ => ret 0%Z
  end.

(** The empty memory with an allocator that follows [answers]. *)
Definition init_state (answers : list bool) : state := mkState ∅ answers.

(** A memory with one handle, at address 1, for the string [hi] held in
    the array at address 2, with a counter of [c]. *)
Definition hi_state (c : Z) : state :=
  mkState
    (<[2%positive := BBytes [Some x68; Some x69; Some x00]]>
       (<[1%positive := BObj (mkJSObject (Some c) (Some (HeapPtr 2)) (Some 3%Z))]> ∅))
    [].

(** ** Predicates on memories and histories *)

Definition upd_obj (h : loc) (o : JSObject) (st : state) : state :=
  mkState (<[h := BObj o]> (heap st)) (oracle st).

(** The payload pointer of a handle is null (the buffer could not be
    allocated) or the address of a live array. *)
Definition payload_ok (st : state) (p : ptr) : bool :=
  match p with
  | NULL => true
  | HeapPtr l =>
      match heap st !! l with
      | Some (BBytes _) => true
      | _ => false
      end
  | StrLit _ => false
  end.

(** The handle at [h] is in state Live([c]): allocated, every field
    assigned, a count of at least 1. *)
Definition live (st : state) (h : loc) (c : Z) (p : ptr) (n : Z) : Prop :=
  heap st !! h = Some (BObj (mkJSObject (Some c) (Some p) (Some n)))
  /\ (1 <= c <= INT_MAX)%Z
  /\ payload_ok st p = true.

(** The heap once the payload behind [p] is deallocated. *)
Definition free_payload (p : ptr) (m : gmap positive block) : gmap positive block :=
  match p with
  | HeapPtr l => delete l m
  | _ => m
  end.

(** What an operation on the handle at [h] must leave alone: the payload
    pointer and the size field, every other block, the string behind the
    payload pointer, and the allocator. *)
Definition frame (st st' : state) (h : loc) (p : ptr) (n : Z) : Prop :=
  (exists c', heap st' !! h = Some (BObj (mkJSObject (Some c') (Some p) (Some n))))
  /\ (forall l : loc, l <> h -> heap st' !! l = heap st !! l)
  /\ c_str st' p = c_str st p
  /\ oracle st' = oracle st.

Definition is_free (e : event) : bool :=
  match e with EvFree _ => true | _ => false end.

(** The deallocations of a history, in order. *)
Definition frees (tr : list event) : list event := List.filter is_free tr.

Definition is_failed_malloc (e : event) : bool :=
  match e with EvMalloc _ NULL => true | _ => false end.

(** No allocation of the history was refused. *)
Definition no_alloc_failure (tr : list event) : Prop :=
  List.forallb (fun e => negb (is_failed_malloc e)) tr = true.

(** The memory of [hi_state 1] with a second handle, at address 3, for
    the string [a] held in the array at address 4. *)
Definition two_handles_state : state :=
  mkState
    (<[4%positive := BBytes [Some x61; Some x00]]>
       (<[3%positive := BObj (mkJSObject (Some 1%Z) (Some (HeapPtr 4)) (Some 2%Z))]>
          (heap (hi_state 1))))
    [].

(** ** Sequences of handle operations *)

(** What an owner of a Handle may call on it between its creation and its
    last release. *)
Inductive handle_op : Type := OpRetain | OpRelease.

Definition run_op (obj : ptr) (o : handle_op) : M unit :=
  match o with
  | OpRetain => retain_js_object obj
  | OpRelease => release_js_object obj
  end.

(** The calls of [ops] on [obj], one after the other. *)
Fixpoint run_ops (obj : ptr) (ops : list handle_op) : M unit :=
  match ops with
  | [] => ret tt
  | o :: r => run_op obj o ;; run_ops obj r
  end.

Definition op_event (obj : ptr) (o : handle_op) : event :=
  match o with
  | OpRetain => EvCall (CallRetain obj)
  | OpRelease => EvCall (CallRelease obj)
  end.

(** Retains minus releases. *)
Fixpoint balance (ops : list handle_op) : Z :=
  match ops with
  | [] => 0%Z
  | OpRetain :: r => (1 + balance r)%Z
  | OpRelease :: r => (-1 + balance r)%Z
  end.

(** From a counter of [c], every call of [ops] leaves the counter between
    1 and [INT_MAX]: no call overflows it and none brings it to zero. *)
Fixpoint stays_live (c : Z) (ops : list handle_op) : bool :=
  match ops with
  | [] => true
  | o :: r =>
      let c' := (c + balance [o])%Z in
      (1 <=? c')%Z && (c' <=? INT_MAX)%Z && stays_live c' r
  end.

(** ** Greeting and system information *)

Definition hello_from_c : list byte :=
  list_byte_of_string "Hello from UnleashedJS C runtime!".

(** What the compiler that builds the file defines: [__GNUC__],
    [__clang__], and the strings [__VERSION__] and [__clang_version__]. *)
Record toolchain : Type := mkToolchain {
  has_GNUC : bool;
  has_clang : bool;
  VERSION : list byte;
  clang_version : list byte
}.

Definition arch_name (a : arch) : list byte :=
  match a with
  | X86_64 => list_byte_of_string "x86_64"
  | Aarch64 => list_byte_of_string "arm64"
  | OtherArch => list_byte_of_string "unknown"
  end.

Definition compiler_name (tc : toolchain) : list byte :=
  if has_GNUC tc then list_byte_of_string "GCC"
  else if has_clang tc then list_byte_of_string "Clang"
  else list_byte_of_string "Unknown".

Definition compiler_version (tc : toolchain) : list byte :=
  if has_GNUC tc then VERSION tc
  else if has_clang tc then clang_version tc
  else list_byte_of_string "0.0.0".

(** The expansion of the format of [get_system_info]; a [%s] gives the
    characters of its argument before the terminator. *)
Definition system_info_text (a : arch) (tc : toolchain) : list byte :=
  list_byte_of_string "UnleashedJS Runtime v1.0.0" ++ [x0a]
  ++ list_byte_of_string "Architecture: " ++ until_nul (arch_name a) ++ [x0a]
  ++ list_byte_of_string "Compiler: " ++ until_nul (compiler_name tc)
  ++ list_byte_of_string " " ++ until_nul (compiler_version tc) ++ [x0a]
  ++ list_byte_of_string "Features: ORC Memory Management, Native Performance".

(** [snprintf(buffer, size, ...)] stores the first [size - 1] characters
    of the expansion and a terminator: the string left in [buffer]. *)
Definition snprintf (size : nat) (expansion : list byte) : list byte :=
  take (size - 1) expansion.

(** [get_system_info] returns the address of its static [buffer\[256\]];
    its value here is the string it has left there. *)
Definition get_system_info (a : arch) (tc : toolchain) : list byte :=
  snprintf 256 (system_info_text a tc).

(** * Properties *)

(** ** Arithmetic of the counter *)

Lemma wrap_int_id (z : Z) : in_int z -> wrap_int z = z.
Proof.
  unfold in_int, INT_MIN, INT_MAX, wrap_int. intros Hz.
  rewrite Z.mod_small; lia.
Qed.

Lemma wrap_int_range (z : Z) : in_int (wrap_int z).
Proof.
  unfold in_int, INT_MIN, INT_MAX, wrap_int.
  pose proof (Z.mod_pos_bound (z + 2 ^ 31) (2 ^ 32)). lia.
Qed.

Lemma wrap_int_add (a b : Z) : wrap_int (wrap_int a + b) = wrap_int (a + b).
Proof.
  unfold wrap_int. f_equal.
  replace ((a + 2 ^ 31) mod 2 ^ 32 - 2 ^ 31 + b + 2 ^ 31)%Z
    with ((a + 2 ^ 31) mod 2 ^ 32 + b)%Z by lia.
  rewrite Zplus_mod_idemp_l. f_equal. lia.
Qed.

Lemma wrap_int_zero (z : Z) : wrap_int z = 0%Z <-> (z mod 2 ^ 32 = 0)%Z.
Proof.
  unfold wrap_int.
  pose proof (Z.mod_pos_bound (z + 2 ^ 31) (2 ^ 32)).
  pose proof (Z.mod_pos_bound z (2 ^ 32)).
  rewrite (Z.div_mod z (2 ^ 32)) at 1 by lia.
  replace (2 ^ 32 * (z / 2 ^ 32) + z mod 2 ^ 32 + 2 ^ 31)%Z
    with ((z mod 2 ^ 32 + 2 ^ 31) + (z / 2 ^ 32) * 2 ^ 32)%Z by lia.
  rewrite Z_mod_plus_full.
  destruct (Z_lt_dec (z mod 2 ^ 32) (2 ^ 31)) as [Hlt | Hge].
  - rewrite Z.mod_small by lia. lia.
  - replace (z mod 2 ^ 32 + 2 ^ 31)%Z
      with ((z mod 2 ^ 32 - 2 ^ 31) + 1 * 2 ^ 32)%Z by lia.
    rewrite Z_mod_plus_full, Z.mod_small by lia. lia.
Qed.

(** ** Runs of the primitives *)

Lemma state_eta (st : state) : mkState (heap st) (oracle st) = st.
Proof. by destruct st. Qed.

Lemma bind_ok {A B} (m : M A) (f : A -> M B) st a st1 t1 b st2 t2 :
  m st = Ok a st1 t1 -> f a st1 = Ok b st2 t2 ->
  bind m f st = Ok b st2 (t1 ++ t2).
Proof. unfold bind. by intros -> ->. Qed.

Lemma load_field_run {A} (f : JSObject -> option A) st h o v :
  heap st !! h = Some (BObj o) -> f o = Some v ->
  load_field f (HeapPtr h) st = Ok v st [].
Proof.
  intros Hh Hf. unfold load_field, bind, load_obj. rewrite Hh, Hf. reflexivity.
Qed.

Lemma store_field_run (upd : JSObject -> JSObject) st h o :
  heap st !! h = Some (BObj o) ->
  store_field upd (HeapPtr h) st = Ok tt (upd_obj h (upd o) st) [].
Proof.
  intros Hh. unfold store_field, bind, load_obj, store_obj.
  rewrite Hh. simpl. rewrite Hh. reflexivity.
Qed.

Lemma upd_obj_lookup h o st : heap (upd_obj h o st) !! h = Some (BObj o).
Proof. apply lookup_insert_eq. Qed.

Lemma upd_obj_upd_obj h o o' st : upd_obj h o (upd_obj h o' st) = upd_obj h o st.
Proof. unfold upd_obj. simpl. by rewrite insert_insert_eq. Qed.

Lemma upd_obj_id h o st : heap st !! h = Some (BObj o) -> upd_obj h o st = st.
Proof.
  intros Hh. unfold upd_obj. rewrite insert_id by done. apply state_eta.
Qed.

(** ** Runs of [retain_js_object] and [release_js_object] on a live block *)

Lemma retain_run st h o c :
  heap st !! h = Some (BObj o) -> ref_count o = Some c ->
  retain_js_object (HeapPtr h) st
  = Ok tt (upd_obj h (set_ref_count (wrap_int (c + 1)) o) st)
       [EvCall (CallRetain (HeapPtr h))].
Proof.
  intros Hh Hc. unfold retain_js_object. simpl.
  eapply (bind_ok _ _ _ _ _ [_]); [reflexivity |].
  eapply (bind_ok _ _ _ _ _ []); [by eapply load_field_run |].
  by apply store_field_run.
Qed.

Lemma release_run_keep st h o c :
  heap st !! h = Some (BObj o) -> ref_count o = Some c ->
  wrap_int (c - 1) <> 0%Z ->
  release_js_object (HeapPtr h) st
  = Ok tt (upd_obj h (set_ref_count (wrap_int (c - 1)) o) st)
       [EvCall (CallRelease (HeapPtr h))].
Proof.
  intros Hh Hc Hnz. unfold release_js_object. simpl.
  eapply (bind_ok _ _ _ _ _ [_]); [reflexivity |].
  eapply (bind_ok _ _ _ _ _ []); [by eapply load_field_run |].
  eapply (bind_ok _ _ _ _ _ []); [by apply store_field_run |].
  eapply (bind_ok _ _ _ _ _ []);
    [eapply load_field_run; [apply upd_obj_lookup | reflexivity] |].
  apply Z.eqb_neq in Hnz. rewrite Hnz. reflexivity.
Qed.

Lemma release_run_free st h o c p :
  heap st !! h = Some (BObj o) -> ref_count o = Some c -> data o = Some p ->
  wrap_int (c - 1) = 0%Z -> payload_ok st p = true ->
  release_js_object (HeapPtr h) st
  = Ok tt (mkState (delete h (free_payload p (heap st))) (oracle st))
       [EvCall (CallRelease (HeapPtr h)); EvFree p; EvFree (HeapPtr h)].
Proof.
  intros Hh Hc Hd Hz Hp. unfold release_js_object. simpl.
  eapply (bind_ok _ _ _ _ _ [_]); [reflexivity |].
  eapply (bind_ok _ _ _ _ _ []); [by eapply load_field_run |].
  eapply (bind_ok _ _ _ _ _ []); [by apply store_field_run |].
  eapply (bind_ok _ _ _ _ _ []);
    [eapply load_field_run; [apply upd_obj_lookup | reflexivity] |].
  rewrite Hz. simpl.
  eapply (bind_ok _ _ _ _ _ []);
    [eapply load_field_run; [apply upd_obj_lookup | exact Hd] |].
  destruct p as [| l | s]; simpl in Hp; try discriminate.
  - unfold bind, free. simpl. rewrite lookup_insert_eq. simpl.
    by rewrite delete_insert_eq.
  - destruct (heap st !! l) as [[o' | cells] |] eqn:Hl; try discriminate.
    assert (l <> h) as Hne by (intros ->; congruence).
    unfold bind, free. simpl.
    rewrite lookup_insert_ne, Hl by done. simpl.
    rewrite lookup_delete_ne, lookup_insert_eq by done. simpl.
    by rewrite delete_insert_ne, delete_insert_eq by done.
Qed.

(** ** Repeated calls *)

Lemma times_succ (n : N) (op : M unit) :
  times (N.succ n) op = (op ;; times n op).
Proof. unfold times. by rewrite N.iter_succ. Qed.

Lemma set_ref_count_same o c : ref_count o = Some c -> set_ref_count c o = o.
Proof. destruct o. simpl. by intros ->. Qed.

Lemma times_retain_run (n : N) : forall st h o c,
  heap st !! h = Some (BObj o) -> ref_count o = Some c -> in_int c ->
  times n (retain_js_object (HeapPtr h)) st
  = Ok tt (upd_obj h (set_ref_count (wrap_int (c + Z.of_N n)) o) st)
       (replicate (N.to_nat n) (EvCall (CallRetain (HeapPtr h)))).
Proof.
  induction n as [| n IH] using N.peano_ind; intros st h o c Hh Hc Hr.
  - simpl. rewrite Z.add_0_r, wrap_int_id, set_ref_count_same, upd_obj_id by done.
    reflexivity.
  - rewrite times_succ.
    erewrite bind_ok;
      [ | by eapply retain_run
        | eapply (IH _ _ _ (wrap_int (c + 1)));
          [apply upd_obj_lookup | reflexivity | apply wrap_int_range] ].
    rewrite upd_obj_upd_obj, wrap_int_add, N2Nat.inj_succ, N2Z.inj_succ.
    replace (c + Z.succ (Z.of_N n))%Z with (c + 1 + Z.of_N n)%Z by lia.
    reflexivity.
Qed.

Lemma times_release_run (k : N) : forall st h o c,
  heap st !! h = Some (BObj o) -> ref_count o = Some c -> in_int c ->
  (forall j : Z, (1 <= j <= Z.of_N k)%Z -> wrap_int (c - j) <> 0%Z) ->
  times k (release_js_object (HeapPtr h)) st
  = Ok tt (upd_obj h (set_ref_count (wrap_int (c - Z.of_N k)) o) st)
       (replicate (N.to_nat k) (EvCall (CallRelease (HeapPtr h)))).
Proof.
  induction k as [| k IH] using N.peano_ind; intros st h o c Hh Hc Hr Hnz.
  - simpl. rewrite Z.sub_0_r, wrap_int_id, set_ref_count_same, upd_obj_id by done.
    reflexivity.
  - rewrite times_succ.
    erewrite bind_ok;
      [ | eapply release_run_keep; [done | done | apply Hnz; lia]
        | eapply (IH _ _ _ (wrap_int (c - 1)));
          [apply upd_obj_lookup | reflexivity | apply wrap_int_range |] ].
    + rewrite upd_obj_upd_obj.
      replace (wrap_int (c - 1) - Z.of_N k)%Z
        with (wrap_int (c + -1) + - Z.of_N k)%Z by (f_equal; lia).
      rewrite wrap_int_add, N2Nat.inj_succ, N2Z.inj_succ.
      replace (c - Z.succ (Z.of_N k))%Z with (c + -1 + - Z.of_N k)%Z by lia.
      reflexivity.
    + intros j Hj.
      replace (wrap_int (c - 1) - j)%Z with (wrap_int (c + -1) + - j)%Z
        by (f_equal; lia).
      rewrite wrap_int_add.
      replace (c + -1 + - j)%Z with (c - (j + 1))%Z by lia.
      apply Hnz. lia.
Qed.

Lemma frees_app (t1 t2 : list event) : frees (t1 ++ t2) = frees t1 ++ frees t2.
Proof. apply List.filter_app. Qed.

Lemma frees_replicate_call (n : nat) (c : call) :
  frees (replicate n (EvCall c)) = [].
Proof. induction n as [| n IH]; simpl; [done | exact IH]. Qed.

(** ** C strings *)

Lemma c_strlen_nonneg (s : list byte) : forall len,
  c_strlen s = Some len -> (0 <= len)%Z.
Proof.
  induction s as [| b r IH]; intros len; simpl; [discriminate |].
  destruct (Byte.eqb b x00).
  - intros [= <-]. lia.
  - destruct (c_strlen r) as [n |]; simpl; [| discriminate].
    intros [= <-]. specialize (IH n eq_refl). lia.
Qed.

Lemma c_strlen_c_string (d : list byte) :
  c_strlen (c_string d) = Some (Z.of_nat (length (until_nul d))).
Proof.
  induction d as [| b r IH]; simpl; [done |].
  destruct (Byte.eqb b x00); [done |].
  unfold c_string in IH. rewrite IH. simpl. f_equal. lia.
Qed.

Lemma take_c_string (d : list byte) :
  take (S (length (until_nul d))) (c_string d) = c_string (until_nul d).
Proof.
  induction d as [| b r IH]; simpl; [done |].
  destruct (Byte.eqb b x00) eqn:Hb.
  - apply Byte.byte_dec_bl in Hb. subst b. reflexivity.
  - unfold c_string in *. simpl. f_equal. exact IH.
Qed.

Lemma read_cells_c_string (d : list byte) :
  read_cells (Some <$> c_string (until_nul d)) = Some (until_nul d).
Proof.
  induction d as [| b r IH]; csimpl; [done |].
  destruct (Byte.eqb b x00) eqn:Hb; csimpl; [done |].
  rewrite Hb. unfold c_string in IH. rewrite IH. reflexivity.
Qed.

Lemma until_nul_nul_free (d : list byte) : nul_free d -> until_nul d = d.
Proof.
  unfold nul_free. induction d as [| b r IH]; simpl; [done |].
  intros [Hb Hr]%not_elem_of_cons.
  destruct (Byte.eqb b x00) eqn:E.
  - apply Byte.byte_dec_bl in E. congruence.
  - f_equal. by apply IH.
Qed.

(** ** Runs of [create_js_object] *)

Ltac unfold_run :=
  cbv beta iota delta
    [create_js_object js_object_get_data bind ret emit undefined malloc
     store_ref_count store_size store_data load_ref_count load_size load_data
     load_field store_field load_obj store_obj strlen strcpy].

Ltac run_heap :=
  repeat first
    [ rewrite lookup_insert_eq | rewrite insert_insert_eq | progress simpl ].

Lemma create_run_no_obj data st :
  hd true (oracle st) = false ->
  create_js_object data st
  = Ok NULL (mkState (heap st) (tail (oracle st)))
       [EvCall (CallCreate data); EvMalloc ReqJSObject NULL].
Proof.
  intros Ho. unfold create_js_object, bind, emit, malloc. rewrite Ho. reflexivity.
Qed.

Lemma create_run_overrun data st :
  hd true (oracle st) = true -> c_strlen data = None ->
  create_js_object data st = Undefined OutOfBounds.
Proof.
  intros Ho Hlen.
  unfold_run. rewrite Ho. run_heap. rewrite Hlen. reflexivity.
Qed.

Lemma create_run_no_buf data st len :
  hd true (oracle st) = true -> hd true (tail (oracle st)) = false ->
  c_strlen data = Some len ->
  create_js_object data st
  = Ok (HeapPtr (fresh (dom (heap st))))
       (mkState
          (<[fresh (dom (heap st)) :=
               BObj (mkJSObject (Some 1%Z) (Some NULL) (Some (len + 1)%Z))]>
             (heap st))
          (tail (tail (oracle st))))
       [EvCall (CallCreate data);
        EvMalloc ReqJSObject (HeapPtr (fresh (dom (heap st))));
        EvMalloc (ReqBytes (len + 1)) NULL].
Proof.
  intros Ho Ho' Hlen.
  unfold_run. rewrite Ho. run_heap. rewrite Hlen. run_heap. rewrite Ho'. run_heap.
  reflexivity.
Qed.

Lemma fresh_buf_ne (m : gmap positive block) :
  fresh ({[fresh (dom m)]} ∪ dom m) <> fresh (dom m).
Proof.
  intros E. apply (is_fresh ({[fresh (dom m)]} ∪ dom m)).
  rewrite E at 1. set_solver.
Qed.

Lemma fresh_obj_None (m : gmap positive block) : m !! fresh (dom m) = None.
Proof. apply not_elem_of_dom, is_fresh. Qed.

Lemma fresh_buf_None (m : gmap positive block) :
  m !! fresh ({[fresh (dom m)]} ∪ dom m) = None.
Proof.
  apply not_elem_of_dom. intros Hin.
  apply (is_fresh ({[fresh (dom m)]} ∪ dom m)). set_solver.
Qed.

Lemma create_run_ok data st len :
  hd true (oracle st) = true -> hd true (tail (oracle st)) = true ->
  c_strlen data = Some len ->
  create_js_object data st
  = Ok (HeapPtr (fresh (dom (heap st))))
       (mkState
          (<[fresh ({[fresh (dom (heap st))]} ∪ dom (heap st)) :=
               BBytes (Some <$> take (Z.to_nat (len + 1)) data)]>
             (<[fresh (dom (heap st)) :=
                  BObj (mkJSObject (Some 1%Z)
                          (Some (HeapPtr
                                   (fresh ({[fresh (dom (heap st))]}
                                             ∪ dom (heap st)))))
                          (Some (len + 1)%Z))]>
                (heap st)))
          (tail (tail (oracle st))))
       [EvCall (CallCreate data);
        EvMalloc ReqJSObject (HeapPtr (fresh (dom (heap st))));
        EvMalloc (ReqBytes (len + 1))
          (HeapPtr (fresh ({[fresh (dom (heap st))]} ∪ dom (heap st))))].
Proof.
  intros Ho Ho' Hlen.
  pose proof (fresh_buf_ne (heap st)) as Hne.
  pose proof (c_strlen_nonneg _ _ Hlen) as Hpos.
  unfold_run. rewrite Ho. run_heap. rewrite Hlen. run_heap. rewrite Ho'.
  run_heap. rewrite !dom_insert_L.
  set (h := fresh (dom (heap st))) in *.
  set (l := fresh ({[h]} ∪ dom (heap st))) in *.
  repeat first
    [ rewrite lookup_insert_eq
    | rewrite (lookup_insert_ne _ l h) by done
    | rewrite (lookup_insert_ne _ h l) by done
    | rewrite insert_insert_eq
    | progress simpl ].
  rewrite length_replicate, Z2Nat.id, Z.leb_refl by lia.
  rewrite drop_ge, app_nil_r by (by rewrite length_replicate).
  rewrite (insert_insert_ne _ h l) by done.
  rewrite !insert_insert_eq. reflexivity.
Qed.

(** What a successful [create_js_object] leaves: a fresh handle in state
    Live(1), whose deallocation gives back the memory it started from. *)
Lemma create_inv data st h st1 tr :
  create_js_object data st = Ok (HeapPtr h) st1 tr ->
  exists len p,
    heap st !! h = None
    /\ c_strlen data = Some len
    /\ live st1 h 1 p (len + 1)
    /\ delete h (free_payload p (heap st1)) = heap st.
Proof.
  intros Hrun.
  destruct (hd true (oracle st)) eqn:Ho;
    [| by rewrite create_run_no_obj in Hrun].
  destruct (c_strlen data) as [len |] eqn:Hlen;
    [| by rewrite create_run_overrun in Hrun].
  pose proof (fresh_obj_None (heap st)) as Hh.
  pose proof (fresh_buf_None (heap st)) as Hl.
  pose proof (fresh_buf_ne (heap st)) as Hne.
  exists len.
  destruct (hd true (tail (oracle st))) eqn:Ho'.
  - rewrite (create_run_ok _ _ len) in Hrun by done.
    injection Hrun as <- <- <-.
    eexists. split; [done |]. split; [done |]. split.
    + unfold live. simpl.
      split; [by rewrite lookup_insert_ne, lookup_insert_eq |].
      split; [unfold INT_MAX; lia |].
      unfold payload_ok. simpl. by rewrite lookup_insert_eq.
    + simpl. rewrite delete_insert_eq, delete_insert_ne, delete_insert_eq by done.
      rewrite (delete_id (heap st) (fresh ({[_]} ∪ _))) by done.
      by rewrite delete_id.
  - rewrite (create_run_no_buf _ _ len) in Hrun by done.
    injection Hrun as <- <- <-.
    exists NULL. split; [done |]. split; [done |]. split.
    + unfold live, payload_ok. simpl. rewrite lookup_insert_eq.
      split; [done |]. split; [| done]. unfold INT_MAX. lia.
    + simpl. rewrite delete_insert_eq. by rewrite delete_id.
Qed.

(** ** Frame of an update of the counter *)

Lemma c_str_upd_obj st h o o' p :
  heap st !! h = Some (BObj o) -> c_str (upd_obj h o' st) p = c_str st p.
Proof.
  intros Hh. destruct p as [| l | s]; simpl; try done.
  destruct (decide (l = h)) as [-> | Hne].
  - by rewrite lookup_insert_eq, Hh.
  - by rewrite lookup_insert_ne.
Qed.

Lemma payload_ok_upd_obj st h o o' p :
  heap st !! h = Some (BObj o) ->
  payload_ok (upd_obj h o' st) p = payload_ok st p.
Proof.
  intros Hh. destruct p as [| l | s]; simpl; try done.
  destruct (decide (l = h)) as [-> | Hne].
  - by rewrite lookup_insert_eq, Hh.
  - by rewrite lookup_insert_ne.
Qed.

Lemma frame_upd_obj st h c p n c' :
  live st h c p n ->
  frame st (upd_obj h (mkJSObject (Some c') (Some p) (Some n)) st) h p n.
Proof.
  intros (Hh & _ & _). unfold frame. split; [| split; [| split]].
  - exists c'. apply upd_obj_lookup.
  - intros l Hl. simpl. by rewrite lookup_insert_ne.
  - by eapply c_str_upd_obj.
  - reflexivity.
Qed.

(** ** [n] retains followed by [k] releases *)

Lemma retains_releases_run (n k : N) st h c p sz :
  live st h c p sz ->
  (forall j : Z, (1 <= j <= Z.of_N k)%Z -> wrap_int (c + Z.of_N n - j) <> 0%Z) ->
  (times n (retain_js_object (HeapPtr h)) ;;
   times k (release_js_object (HeapPtr h))) st
  = Ok tt
       (upd_obj h
          (mkJSObject (Some (wrap_int (c + Z.of_N n - Z.of_N k))) (Some p) (Some sz))
          st)
       (replicate (N.to_nat n) (EvCall (CallRetain (HeapPtr h)))
          ++ replicate (N.to_nat k) (EvCall (CallRelease (HeapPtr h)))).
Proof.
  intros (Hh & Hc & Hp) Hnz.
  assert (in_int c) as Hr by (unfold in_int, INT_MIN, INT_MAX in *; lia).
  erewrite bind_ok;
    [ | by eapply times_retain_run
      | eapply (times_release_run _ _ _ _ (wrap_int (c + Z.of_N n)));
        [apply upd_obj_lookup | reflexivity | apply wrap_int_range |] ].
  - rewrite upd_obj_upd_obj.
    replace (wrap_int (c + Z.of_N n) - Z.of_N k)%Z
      with (wrap_int (c + Z.of_N n) + - Z.of_N k)%Z by lia.
    rewrite wrap_int_add.
    replace (c + Z.of_N n + - Z.of_N k)%Z with (c + Z.of_N n - Z.of_N k)%Z by lia.
    reflexivity.
  - intros j Hj.
    replace (wrap_int (c + Z.of_N n) - j)%Z
      with (wrap_int (c + Z.of_N n) + - j)%Z by lia.
    rewrite wrap_int_add.
    replace (c + Z.of_N n + - j)%Z with (c + Z.of_N n - j)%Z by lia.
    by apply Hnz.
Qed.

(** ** Laws of sequencing, pointwise *)

Lemma bind_assoc_run {A B C} (m : M A) (f : A -> M B) (g : B -> M C) st :
  bind (bind m f) g st = bind m (fun x => bind (f x) g) st.
Proof.
  unfold bind. destruct (m st) as [a st1 t1 |]; [| done].
  destruct (f a st1) as [b st2 t2 |]; [| done].
  destruct (g b st2) as [c st3 t3 |]; [| done].
  by rewrite app_assoc.
Qed.

Lemma bind_ext_run {A B} (m : M A) (f g : A -> M B) st :
  (forall a st', f a st' = g a st') -> bind m f st = bind m g st.
Proof.
  intros Hfg. unfold bind. destruct (m st) as [a st1 t1 |]; [| done].
  by rewrite Hfg.
Qed.

Lemma bind_ret_tt_run (m : M unit) st : (m ;; ret tt) st = m st.
Proof.
  unfold bind, ret. destruct (m st) as [[] st1 t1 |]; [| done].
  by rewrite app_nil_r.
Qed.

Lemma ret_bind_run {A B} (a : A) (f : A -> M B) st : bind (ret a) f st = f a st.
Proof. unfold bind, ret. by destruct (f a st). Qed.

Lemma times_snoc_run (op : M unit) (n : N) : forall st,
  times (N.succ n) op st = (times n op ;; op) st.
Proof.
  induction n as [| n IH] using N.peano_ind; intros st.
  - rewrite times_succ. change (times 0 op) with (ret tt).
    by rewrite bind_ret_tt_run, ret_bind_run.
  - rewrite (times_succ (N.succ n)).
    rewrite (bind_ext_run _ _ (fun _ => times n op ;; op)) by (intros; apply IH).
    by rewrite <- bind_assoc_run, <- times_succ.
Qed.

Lemma delete_free_payload_upd (m : gmap positive block) h o o' p :
  m !! h = Some (BObj o) ->
  delete h (free_payload p (<[h := BObj o']> m)) = delete h (free_payload p m).
Proof.
  intros Hh. destruct p as [| l | s]; simpl; try apply delete_insert_eq.
  destruct (decide (l = h)) as [-> | Hne].
  - by rewrite delete_insert_eq.
  - by rewrite delete_insert_ne, delete_insert_eq.
Qed.

(** [n] retains, then releases up to the one that brings the counter to
    zero. *)
Lemma retains_releases_free (n k : N) st h c p sz :
  live st h c p sz ->
  (forall j : Z, (1 <= j <= Z.of_N k)%Z -> wrap_int (c + Z.of_N n - j) <> 0%Z) ->
  wrap_int (c + Z.of_N n - Z.of_N k - 1) = 0%Z ->
  (times n (retain_js_object (HeapPtr h)) ;;
   times (N.succ k) (release_js_object (HeapPtr h))) st
  = Ok tt (mkState (delete h (free_payload p (heap st))) (oracle st))
       ((replicate (N.to_nat n) (EvCall (CallRetain (HeapPtr h)))
           ++ replicate (N.to_nat k) (EvCall (CallRelease (HeapPtr h))))
          ++ [EvCall (CallRelease (HeapPtr h)); EvFree p; EvFree (HeapPtr h)]).
Proof.
  intros Hlive Hnz Hz. pose proof Hlive as (Hh & Hc & Hp).
  rewrite (bind_ext_run _ _
             (fun _ => times k (release_js_object (HeapPtr h)) ;;
                       release_js_object (HeapPtr h)))
    by (intros; apply times_snoc_run).
  rewrite <- bind_assoc_run.
  erewrite bind_ok;
    [ | by apply retains_releases_run
      | eapply release_run_free;
        [apply upd_obj_lookup | reflexivity | reflexivity | |] ].
  - simpl. by erewrite delete_free_payload_upd.
  - replace (wrap_int (c + Z.of_N n - Z.of_N k) - 1)%Z
      with (wrap_int (c + Z.of_N n - Z.of_N k) + -1)%Z by lia.
    rewrite wrap_int_add, <- Hz. f_equal.
  - by erewrite payload_ok_upd_obj.
Qed.

Lemma small_count_nonzero (z : Z) :
  (1 <= z < 2 ^ 32)%Z -> wrap_int z <> 0%Z.
Proof.
  intros Hz Hw. apply wrap_int_zero in Hw. rewrite Z.mod_small in Hw; lia.
Qed.

(** [n] retains that wrap the counter back to where it started, then one
    release. *)
Lemma wrapped_retains_release_run (n : N) st h p sz :
  live st h 1 p sz ->
  wrap_int (Z.of_N n) = 0%Z ->
  (times n (retain_js_object (HeapPtr h)) ;;
   release_js_object (HeapPtr h)) st
  = Ok tt (mkState (delete h (free_payload p (heap st))) (oracle st))
       (replicate (N.to_nat n) (EvCall (CallRetain (HeapPtr h)))
          ++ [EvCall (CallRelease (HeapPtr h)); EvFree p; EvFree (HeapPtr h)]).
Proof.
  intros Hlive Hz. pose proof Hlive as (Hh & Hc & Hp).
  erewrite bind_ok;
    [ | eapply (times_retain_run n _ _ _ 1); [exact Hh | reflexivity |]
      | eapply release_run_free;
        [apply upd_obj_lookup | reflexivity | reflexivity | |] ].
  - simpl. by erewrite delete_free_payload_upd.
  - unfold in_int, INT_MIN, INT_MAX. lia.
  - replace (wrap_int (1 + Z.of_N n) - 1)%Z
      with (wrap_int (1 + Z.of_N n) + -1)%Z by lia.
    rewrite wrap_int_add, <- Hz. f_equal. lia.
  - by erewrite payload_ok_upd_obj.
Qed.

(** ** The claims *)

(** C1, as amended: for every n below 2^32 (the width of the [int]
    counter), from a Handle returned by [create_js_object], n retains
    followed by k <= n releases leave the Handle allocated, with a counter
    of 1 + n - k modulo 2^32 and its payload pointer, size and payload
    untouched, and deallocate nothing; and as long as 1 + n does not exceed
    [INT_MAX], the Handle is then in state Live(1 + n - k).  The release
    number n + 1 deallocates the payload and then the structure, each once,
    and the memory is the one [create_js_object] started from. *)
Theorem retains_then_releases_free_at_last
    (n : N) (s : list byte) (st : state) (h : loc)
    (st1 : state) (tr1 : list event) :
  (n < 2 ^ 32)%N ->
  create_js_object s st = Ok (HeapPtr h) st1 tr1 ->
  exists p sz,
    live st1 h 1 p sz
    /\ (forall k : N, (k <= n)%N ->
          exists st2 tr2,
            (times n (retain_js_object (HeapPtr h)) ;;
             times k (release_js_object (HeapPtr h))) st1 = Ok tt st2 tr2
            /\ frees tr2 = []
            /\ heap st2 !! h
               = Some (BObj (mkJSObject
                               (Some (wrap_int (1 + Z.of_N n - Z.of_N k)))
                               (Some p) (Some sz)))
            /\ frame st1 st2 h p sz
            /\ ((Z.of_N n < INT_MAX)%Z ->
                live st2 h (1 + Z.of_N n - Z.of_N k) p sz))
    /\ (exists st3 tr3,
          (times n (retain_js_object (HeapPtr h)) ;;
           times (n + 1) (release_js_object (HeapPtr h))) st1 = Ok tt st3 tr3
          /\ frees tr3 = [EvFree p; EvFree (HeapPtr h)]
          /\ heap st3 !! h = None
          /\ heap st3 = heap st).
Proof.
  intros Hn Hcreate.
  destruct (create_inv _ _ _ _ _ Hcreate) as (len & p & Hfresh & _ & Hlive & Hback).
  assert (Z.of_N n < 2 ^ 32)%Z as Hn' by lia.
  exists p, (len + 1)%Z. split; [exact Hlive |]. split.
  - intros k Hk. eexists _, _. split; [| split; [| split; [| split]]].
    + apply (retains_releases_run n k _ _ _ _ _ Hlive).
      intros j Hj. apply small_count_nonzero. lia.
    + by rewrite frees_app, !frees_replicate_call.
    + apply upd_obj_lookup.
    + by eapply frame_upd_obj.
    + intros Hsmall. destruct Hlive as (Hh & Hc & Hp).
      unfold INT_MAX in Hsmall.
      rewrite wrap_int_id by (unfold in_int, INT_MIN, INT_MAX; lia).
      split; [apply upd_obj_lookup |].
      split; [unfold INT_MAX; lia |].
      by erewrite payload_ok_upd_obj.
  - rewrite N.add_1_r. eexists _, _. split; [| split; [| split]].
    + apply (retains_releases_free n n _ _ _ _ _ Hlive).
      * intros j Hj. apply small_count_nonzero. lia.
      * by replace (1 + Z.of_N n - Z.of_N n - 1)%Z with 0%Z by lia.
    + by rewrite !frees_app, !frees_replicate_call.
    + simpl. apply lookup_delete_eq.
    + simpl. exact Hback.
Qed.

(** C1 at n = 2, on the handle created for the string [hi] in the empty
    memory. *)
Lemma retains_then_releases_free_at_last_witness :
  exists h st1 tr1,
    create_js_object (c_string [x68; x69]) (init_state []) = Ok (HeapPtr h) st1 tr1
    /\ (2 < 2 ^ 32)%N
    /\ exists p sz st3 tr3,
         live st1 h 1 p sz
         /\ (times 2 (retain_js_object (HeapPtr h)) ;;
             times 3 (release_js_object (HeapPtr h))) st1 = Ok tt st3 tr3
         /\ frees tr3 = [EvFree p; EvFree (HeapPtr h)]
         /\ heap st3 = ∅.
Proof.
  eexists _, _, _. split; [reflexivity |]. split; [reflexivity |].
  destruct (retains_then_releases_free_at_last 2 (c_string [x68; x69])
              (init_state []) _ _ _ eq_refl eq_refl)
    as (p & sz & Hlive & _ & st3 & tr3 & Hrun & Hfrees & _ & Hheap).
  exists p, sz, st3, tr3.
  split; [exact Hlive |]. split; [exact Hrun |]. split; [exact Hfrees |].
  exact Hheap.
Defined.

(** C1 as stated fails at n = 2^32: the counter wraps back to 1, and the
    first of the 2^32 + 1 releases, a proper prefix of them, already
    deallocates the payload and the Handle. *)
Lemma retains_wrap_to_premature_free :
  exists h st1 tr1 st2 tr2,
    create_js_object demo_literal (init_state []) = Ok (HeapPtr h) st1 tr1
    /\ (1 < 2 ^ 32 + 1)%N
    /\ (times (2 ^ 32) (retain_js_object (HeapPtr h)) ;;
        release_js_object (HeapPtr h)) st1 = Ok tt st2 tr2
    /\ heap st2 !! h = None
    /\ frees tr2 = [EvFree (HeapPtr 2); EvFree (HeapPtr h)].
Proof.
  assert (exists st1 tr1,
            create_js_object demo_literal (init_state []) = Ok (HeapPtr 1) st1 tr1
            /\ live st1 1 1 (HeapPtr 2) 32) as (st1 & tr1 & Hc & Hlive).
  { eexists _, _. split; [reflexivity | by vm_compute]. }
  assert (wrap_int (Z.of_N (2 ^ 32)) = 0%Z) as Hz by (by vm_compute).
  pose proof (wrapped_retains_release_run _ _ _ _ _ Hlive Hz) as Hrun.
  exists 1%positive, st1, tr1. eexists _, _.
  split; [exact Hc |]. split; [reflexivity |].
  split; [exact Hrun |]. split.
  - apply lookup_delete_eq.
  - generalize (N.to_nat (2 ^ 32)). intros m.
    by rewrite frees_app, frees_replicate_call.
Qed.

(** C4: a null reference makes [retain_js_object] and [release_js_object]
    return at once with the memory as it was, and makes
    [js_object_get_data] return, with the memory as it was, the address of
    the string literal [null]; none of them is undefined. *)
Theorem null_reference_is_absorbed (st : state) :
  retain_js_object NULL st = Ok tt st [EvCall (CallRetain NULL)]
  /\ release_js_object NULL st = Ok tt st [EvCall (CallRelease NULL)]
  /\ js_object_get_data NULL st
     = Ok (StrLit null_literal) st [EvCall (CallGetData NULL)]
  /\ c_str st (StrLit null_literal) = Some [x6e; x75; x6c; x6c].
Proof. repeat split. Qed.

(** C5: on a live Handle with counter c, [release_js_object] stores c - 1
    when c > 1 and deallocates nothing; when c = 1, the counter reaches 0
    and it calls [free] on the payload pointer and then on the structure,
    and both blocks are gone when it returns. *)
Theorem release_decrements_and_frees_at_zero
    (st : state) (h : loc) (c : Z) (p : ptr) (n : Z) :
  live st h c p n ->
  release_js_object (HeapPtr h) st
  = if (c =? 1)%Z then
      Ok tt (mkState (delete h (free_payload p (heap st))) (oracle st))
         [EvCall (CallRelease (HeapPtr h)); EvFree p; EvFree (HeapPtr h)]
    else
      Ok tt (upd_obj h (mkJSObject (Some (c - 1)%Z) (Some p) (Some n)) st)
         [EvCall (CallRelease (HeapPtr h))].
Proof.
  intros (Hh & Hc & Hp). unfold INT_MAX in Hc.
  destruct (Z.eqb_spec c 1) as [-> | Hne].
  - by eapply release_run_free.
  - erewrite release_run_keep; [| done | reflexivity |].
    + rewrite wrap_int_id by (unfold in_int, INT_MIN, INT_MAX; lia).
      reflexivity.
    + rewrite wrap_int_id by (unfold in_int, INT_MIN, INT_MAX; lia). lia.
Qed.

(** C5 on the handle of [hi_state]: with a counter of 1 the release
    deallocates the array and then the structure; with a counter of 2 it
    only stores 1. *)
Lemma release_decrements_and_frees_at_zero_witness :
  live (hi_state 1) 1 1 (HeapPtr 2) 3
  /\ release_js_object (HeapPtr 1) (hi_state 1)
     = Ok tt (init_state [])
          [EvCall (CallRelease (HeapPtr 1)); EvFree (HeapPtr 2); EvFree (HeapPtr 1)]
  /\ release_js_object (HeapPtr 1) (hi_state 2)
     = Ok tt (hi_state 1) [EvCall (CallRelease (HeapPtr 1))].
Proof.
  assert (live (hi_state 1) 1 1 (HeapPtr 2) 3) as H1 by (by vm_compute).
  assert (live (hi_state 2) 1 2 (HeapPtr 2) 3) as H2 by (by vm_compute).
  split; [exact H1 |]. split.
  - rewrite (release_decrements_and_frees_at_zero _ _ _ _ _ H1).
    vm_compute. reflexivity.
  - rewrite (release_decrements_and_frees_at_zero _ _ _ _ _ H2).
    vm_compute. reflexivity.
Defined.

(** C6: on a live Handle, [retain_js_object], and [release_js_object] when
    the counter stays at least 1, return with the payload pointer and the
    size field of the Handle as they were, every other block of the heap
    (the payload among them) untouched, and the string read through the
    payload pointer unchanged: only [ref_count] is written. *)
Theorem retain_release_frame
    (st : state) (h : loc) (c : Z) (p : ptr) (n : Z) :
  live st h c p n ->
  (exists st' tr,
      retain_js_object (HeapPtr h) st = Ok tt st' tr
      /\ heap st' !! h
         = Some (BObj (mkJSObject (Some (wrap_int (c + 1))) (Some p) (Some n)))
      /\ frame st st' h p n
      /\ frees tr = [])
  /\ ((2 <= c)%Z ->
      exists st' tr,
        release_js_object (HeapPtr h) st = Ok tt st' tr
        /\ heap st' !! h
           = Some (BObj (mkJSObject (Some (c - 1)%Z) (Some p) (Some n)))
        /\ frame st st' h p n
        /\ frees tr = []).
Proof.
  intros Hlive. pose proof Hlive as (Hh & Hc & Hp). split.
  - eexists _, _. split; [by eapply retain_run |].
    split; [apply upd_obj_lookup |]. split; [| done].
    by eapply frame_upd_obj.
  - intros Hc2. unfold INT_MAX in Hc.
    assert (wrap_int (c - 1) = (c - 1)%Z) as Hw
      by (apply wrap_int_id; unfold in_int, INT_MIN, INT_MAX; lia).
    eexists _, _. split.
    + eapply release_run_keep; [done | reflexivity | lia].
    + rewrite Hw. split; [apply upd_obj_lookup |]. split; [| done].
      by eapply frame_upd_obj.
Qed.

(** C6 on the handle of [hi_state 2]: after a retain, and after a release,
    the string read through the payload pointer is still [hi]. *)
Lemma retain_release_frame_witness :
  live (hi_state 2) 1 2 (HeapPtr 2) 3
  /\ (2 <= 2)%Z
  /\ (exists st' tr,
        retain_js_object (HeapPtr 1) (hi_state 2) = Ok tt st' tr
        /\ frame (hi_state 2) st' 1 (HeapPtr 2) 3)
  /\ (exists st' tr,
        release_js_object (HeapPtr 1) (hi_state 2) = Ok tt st' tr
        /\ frame (hi_state 2) st' 1 (HeapPtr 2) 3).
Proof.
  assert (live (hi_state 2) 1 2 (HeapPtr 2) 3) as H2 by (by vm_compute).
  destruct (retain_release_frame _ _ _ _ _ H2) as [Hret Hrel].
  split; [exact H2 |]. split; [lia |]. split.
  - destruct Hret as (st' & tr & Hrun & _ & Hframe & _). by exists st', tr.
  - destruct (Hrel ltac:(lia)) as (st' & tr & Hrun & _ & Hframe & _).
    by exists st', tr.
Defined.

(** C2, as amended: when the allocation of the structure is refused,
    [create_js_object] returns a null pointer and the heap is as it was.
    When the structure is allocated and the allocation of the payload
    buffer is refused, it reports no failure: it returns the Handle, with
    a counter of 1, its size field set and a null payload pointer; the
    structure stays allocated and nothing is copied. *)
Theorem create_on_refused_allocation
    (d : list byte) (m : gmap positive block) (rest : list bool) :
  create_js_object (c_string d) (mkState m (false :: rest))
  = Ok NULL (mkState m rest)
       [EvCall (CallCreate (c_string d)); EvMalloc ReqJSObject NULL]
  /\ create_js_object (c_string d) (mkState m (true :: false :: rest))
     = Ok (HeapPtr (fresh (dom m)))
          (mkState
             (<[fresh (dom m) :=
                  BObj (mkJSObject (Some 1%Z) (Some NULL)
                          (Some (Z.of_nat (length (until_nul d)) + 1)%Z))]> m)
             rest)
          [EvCall (CallCreate (c_string d));
           EvMalloc ReqJSObject (HeapPtr (fresh (dom m)));
           EvMalloc (ReqBytes (Z.of_nat (length (until_nul d)) + 1)) NULL].
Proof.
  split.
  - by apply create_run_no_obj.
  - by apply (create_run_no_buf _ (mkState m (true :: false :: rest)) _),
      c_strlen_c_string.
Qed.

(** C2 as stated fails when the second allocation is refused: for the
    string [hi] in the empty memory, [create_js_object] returns a Handle,
    not a null pointer, and the structure it allocated is still in the
    heap, with a null payload pointer. *)
Lemma create_returns_handle_without_buffer :
  create_js_object (c_string [x68; x69]) (init_state [true; false])
  = Ok (HeapPtr 1)
       (mkState
          {[1%positive := BObj (mkJSObject (Some 1%Z) (Some NULL) (Some 3%Z))]}
          [])
       [EvCall (CallCreate [x68; x69; x00]);
        EvMalloc ReqJSObject (HeapPtr 1);
        EvMalloc (ReqBytes 3) NULL]
  /\ HeapPtr 1 <> NULL.
Proof. split; [by vm_compute | discriminate]. Qed.

(** C3, as amended: for every byte sequence [d] without a zero byte (the
    empty one included), [create_js_object] on the string [d] returns, and
    when none of its allocations was refused, [js_object_get_data] on its
    result returns, with the memory as it was, a pointer to a string equal
    to [d]. *)
Theorem read_after_create_round_trip (d : list byte) (st : state) :
  nul_free d ->
  exists p st1 tr1,
    create_js_object (c_string d) st = Ok p st1 tr1
    /\ (no_alloc_failure tr1 ->
        exists q,
          js_object_get_data p st1 = Ok q st1 [EvCall (CallGetData p)]
          /\ c_str st1 q = Some d).
Proof.
  intros Hd. pose proof (c_strlen_c_string d) as Hlen.
  destruct (hd true (oracle st)) eqn:Ho.
  - destruct (hd true (tail (oracle st))) eqn:Ho'.
    + eexists _, _, _. split; [by apply (create_run_ok _ _ _ Ho Ho' Hlen) |].
      intros _. eexists. split.
      * unfold js_object_get_data. simpl.
        eapply (bind_ok _ _ _ _ _ [_]); [reflexivity |].
        eapply load_field_run;
          [ simpl; rewrite lookup_insert_ne by apply fresh_buf_ne;
            apply lookup_insert_eq
          | reflexivity ].
      * simpl. rewrite lookup_insert_eq.
        replace (Z.to_nat (Z.of_nat (length (until_nul d)) + 1))
          with (S (length (until_nul d))) by lia.
        rewrite take_c_string, read_cells_c_string.
        by rewrite until_nul_nul_free.
    + eexists _, _, _. split; [by apply (create_run_no_buf _ _ _ Ho Ho' Hlen) |].
      intros Hno. by vm_compute in Hno.
  - eexists _, _, _. split; [by apply create_run_no_obj |].
    intros Hno. by vm_compute in Hno.
Qed.

(** C3 on the two bytes [ok], created in the memory of [hi_state 1]
    beside the handle already there: the string read back is [ok]. *)
Lemma read_after_create_round_trip_witness :
  nul_free [x6f; x6b]
  /\ exists p st1 tr1 q,
       create_js_object (c_string [x6f; x6b]) (hi_state 1) = Ok p st1 tr1
       /\ no_alloc_failure tr1
       /\ js_object_get_data p st1 = Ok q st1 [EvCall (CallGetData p)]
       /\ c_str st1 q = Some [x6f; x6b].
Proof.
  assert (nul_free [x6f; x6b]) as Hd.
  { unfold nul_free. intros Hin.
    apply elem_of_cons in Hin as [Hin | Hin]; [discriminate |].
    apply elem_of_cons in Hin as [Hin | Hin]; [discriminate |].
    by apply not_elem_of_nil in Hin. }
  split; [exact Hd |].
  destruct (read_after_create_round_trip [x6f; x6b] (hi_state 1) Hd)
    as (p & st1 & tr1 & Hrun & Hread).
  assert (no_alloc_failure tr1) as Hno.
  { assert (Ok p st1 tr1
            = Ok (HeapPtr 3)
                 (mkState
                    (<[4%positive := BBytes [Some x6f; Some x6b; Some x00]]>
                       (<[3%positive :=
                            BObj (mkJSObject (Some 1%Z) (Some (HeapPtr 4))
                                    (Some 3%Z))]> (heap (hi_state 1))))
                    [])
                 [EvCall (CallCreate [x6f; x6b; x00]);
                  EvMalloc ReqJSObject (HeapPtr 3);
                  EvMalloc (ReqBytes 3) (HeapPtr 4)]) as E
      by (rewrite <- Hrun; by vm_compute).
    injection E as -> -> ->. reflexivity. }
  destruct (Hread Hno) as (q & Hq & Hstr).
  by exists p, st1, tr1, q.
Defined.

(** C3 as stated fails on a byte sequence with a zero byte inside: for
    the bytes [a], 0, [b], with every allocation granted, the string read
    back is [a]. *)
Lemma read_after_create_stops_at_nul :
  exists st1 tr1,
    create_js_object (c_string [x61; x00; x62]) (init_state [])
    = Ok (HeapPtr 1) st1 tr1
    /\ no_alloc_failure tr1
    /\ js_object_get_data (HeapPtr 1) st1
       = Ok (HeapPtr 2) st1 [EvCall (CallGetData (HeapPtr 1))]
    /\ c_str st1 (HeapPtr 2) = Some [x61]
    /\ [x61] <> [x61; x00; x62].
Proof.
  eexists _, _. split; [reflexivity |].
  split; [reflexivity |]. split; [by vm_compute |].
  split; [by vm_compute | discriminate].
Qed.

(** ** The demo routine *)

Lemma bind_run_eq {A B} (m : M A) (f : A -> M B) st a st1 t1 :
  m st = Ok a st1 t1 ->
  bind m f st
  = match f a st1 with
    | Ok b st2 t2 => Ok b st2 (t1 ++ t2)
    | Undefined u => Undefined u
    end.
Proof. unfold bind. by intros ->. Qed.

(** Two retains and three releases on a Handle in state Live(1). *)
Lemma demo_body_run st h p sz :
  live st h 1 p sz ->
  (retain_js_object (HeapPtr h) ;;
   retain_js_object (HeapPtr h) ;;
   release_js_object (HeapPtr h) ;;
   release_js_object (HeapPtr h) ;;
   release_js_object (HeapPtr h) ;;
   ret 0%Z) st
  = Ok 0%Z (mkState (delete h (free_payload p (heap st))) (oracle st))
       [EvCall (CallRetain (HeapPtr h)); EvCall (CallRetain (HeapPtr h));
        EvCall (CallRelease (HeapPtr h)); EvCall (CallRelease (HeapPtr h));
        EvCall (CallRelease (HeapPtr h)); EvFree p; EvFree (HeapPtr h)].
Proof.
  intros (Hh & Hc & Hp).
  erewrite bind_run_eq; [| by eapply retain_run].
  erewrite bind_run_eq;
    [| eapply retain_run; [apply upd_obj_lookup | reflexivity]].
  rewrite upd_obj_upd_obj.
  erewrite bind_run_eq;
    [| eapply release_run_keep;
       [apply upd_obj_lookup | reflexivity | by vm_compute]].
  rewrite upd_obj_upd_obj.
  erewrite bind_run_eq;
    [| eapply release_run_keep;
       [apply upd_obj_lookup | reflexivity | by vm_compute]].
  rewrite upd_obj_upd_obj.
  erewrite bind_run_eq;
    [| eapply release_run_free;
       [ apply upd_obj_lookup | reflexivity | reflexivity | by vm_compute
       | by erewrite payload_ok_upd_obj ]].
  simpl. by erewrite delete_free_payload_upd.
Qed.

(** C10: when the allocation of the structure is refused,
    [perform_low_level_demo] returns -1 after the one call of
    [create_js_object], with the heap as it was and no retain or release.
    Otherwise it returns 0 after one create, two retains and three
    releases, the last of which deallocates the payload and the structure:
    the heap is again the one it started from. *)
Theorem perform_low_level_demo_run (st : state) :
  perform_low_level_demo st
  = if hd true (oracle st) then
      let h := HeapPtr (fresh (dom (heap st))) in
      let buf :=
        if hd true (tail (oracle st))
        then HeapPtr (fresh ({[fresh (dom (heap st))]} ∪ dom (heap st)))
        else NULL in
      Ok 0%Z (mkState (heap st) (tail (tail (oracle st))))
         [EvCall (CallCreate demo_literal);
          EvMalloc ReqJSObject h; EvMalloc (ReqBytes 32) buf;
          EvCall (CallRetain h); EvCall (CallRetain h);
          EvCall (CallRelease h); EvCall (CallRelease h);
          EvCall (CallRelease h);
          EvFree buf; EvFree h]
    else
      Ok (-1)%Z (mkState (heap st) (tail (oracle st)))
         [EvCall (CallCreate demo_literal); EvMalloc ReqJSObject NULL].
Proof.
  assert (c_strlen demo_literal = Some 31%Z) as Hlen by reflexivity.
  unfold perform_low_level_demo.
  destruct (hd true (oracle st)) eqn:Ho.
  - destruct (hd true (tail (oracle st))) eqn:Ho'.
    + pose proof (create_run_ok _ _ _ Ho Ho' Hlen) as Hcr.
      destruct (create_inv _ _ _ _ _ Hcr)
        as (len & p & _ & Hlen' & Hlive & Hback).
      assert (p = HeapPtr (fresh ({[fresh (dom (heap st))]} ∪ dom (heap st))))
        as ->.
      { destruct Hlive as (Hh & _). simpl in Hh.
        rewrite lookup_insert_ne, lookup_insert_eq in Hh by apply fresh_buf_ne.
        by injection Hh. }
      erewrite bind_run_eq by exact Hcr.
      cbn [is_null]. rewrite (demo_body_run _ _ _ _ Hlive).
      rewrite Hback. reflexivity.
    + pose proof (create_run_no_buf _ _ _ Ho Ho' Hlen) as Hcr.
      destruct (create_inv _ _ _ _ _ Hcr)
        as (len & p & _ & Hlen' & Hlive & Hback).
      assert (p = NULL) as ->.
      { destruct Hlive as (Hh & _). simpl in Hh.
        rewrite lookup_insert_eq in Hh. by injection Hh. }
      erewrite bind_run_eq by exact Hcr.
      cbn [is_null]. rewrite (demo_body_run _ _ _ _ Hlive).
      rewrite Hback. reflexivity.
  - erewrite bind_run_eq by (by apply create_run_no_obj).
    reflexivity.
Qed.

(** ** Arithmetic dispatcher and cycle counter *)

(** C7: the dispatcher returns a + b, a - b and a * b for the selectors
    0, 1 and 2; for the selector 3 it returns a / b when [b != 0] holds and
    the fallback 0 when it does not. *)
Theorem fast_math_operation_dispatch (a b : float) :
  fast_math_operation a b 0 = (a + b)%float
  /\ fast_math_operation a b 1 = (a - b)%float
  /\ fast_math_operation a b 2 = (a * b)%float
  /\ ((b =? 0)%float = false -> fast_math_operation a b 3 = (a / b)%float)
  /\ ((b =? 0)%float = true -> fast_math_operation a b 3 = 0%float).
Proof.
  repeat split; unfold fast_math_operation; by intros ->.
Qed.

(** C7 on concrete operands: 6 / 3 is 2, and a division by either zero
    gives 0. *)
Lemma fast_math_operation_dispatch_witness :
  ((3 =? 0)%float = false /\ fast_math_operation 6 3 3 = 2%float)
  /\ ((0 =? 0)%float = true /\ fast_math_operation 6 0 3 = 0%float)
  /\ ((-0 =? 0)%float = true /\ fast_math_operation 6 (-0) 3 = 0%float)
  /\ fast_math_operation 6 3 0 = 9%float.
Proof.
  destruct (fast_math_operation_dispatch 6 3) as (Hadd & _ & _ & Hdiv & _).
  destruct (fast_math_operation_dispatch 6 0) as (_ & _ & _ & _ & Hz).
  destruct (fast_math_operation_dispatch 6 (-0)) as (_ & _ & _ & _ & Hnz).
  split; [split; [reflexivity | exact (Hdiv eq_refl)] |].
  split; [split; [reflexivity | exact (Hz eq_refl)] |].
  split; [split; [reflexivity | exact (Hnz eq_refl)] |].
  exact Hadd.
Defined.

(** C9: for a selector outside 0, 1, 2 and 3 the dispatcher returns 0,
    whatever the operands. *)
Theorem fast_math_operation_default (a b : float) (operation : Z) :
  (operation < 0 \/ 3 < operation)%Z ->
  fast_math_operation a b operation = 0%float.
Proof.
  intros Hop. unfold fast_math_operation.
  destruct operation as [| q | q]; [lia | | reflexivity].
  destruct q as [[q | q |] | [q | q |] |]; try reflexivity; lia.
Qed.

(** C9 on the selectors 4 and -1, with operands whose sum is not 0. *)
Lemma fast_math_operation_default_witness :
  (4 < 0 \/ 3 < 4)%Z
  /\ fast_math_operation 6 3 4 = 0%float
  /\ fast_math_operation 6 3 (-1) = 0%float.
Proof.
  split; [right; reflexivity |]. split.
  - apply fast_math_operation_default. right. reflexivity.
  - apply fast_math_operation_default. left. reflexivity.
Defined.

Lemma lor_below_pow2 (x y n : Z) :
  (0 <= n)%Z -> (0 <= x < 2 ^ n)%Z -> (0 <= y < 2 ^ n)%Z ->
  (0 <= Z.lor x y < 2 ^ n)%Z.
Proof.
  intros Hn Hx Hy.
  assert (0 <= Z.lor x y)%Z as Hnn by (apply Z.lor_nonneg; lia).
  split; [exact Hnn |].
  destruct (Z.eq_dec (Z.lor x y) 0%Z) as [-> | Hnz]; [lia |].
  assert (0 < n)%Z as Hn'.
  { destruct (Z.eq_dec n 0%Z) as [-> |]; [| lia].
    assert (x = 0%Z /\ y = 0%Z) as [-> ->] by (simpl in *; lia).
    by simpl in Hnz. }
  apply Z.log2_lt_pow2; [lia |].
  rewrite Z.log2_lor by lia.
  apply Z.max_lub_lt.
  - destruct (Z.eq_dec x 0%Z) as [-> | Hx0]; [simpl | apply Z.log2_lt_pow2]; lia.
  - destruct (Z.eq_dec y 0%Z) as [-> | Hy0]; [simpl | apply Z.log2_lt_pow2]; lia.
Qed.

(** C8: [get_cpu_cycles] returns with the memory as it was, having called
    nothing; its value is a [uint64_t], hence not negative; on a target
    other than x86_64 the value is 0. *)
Theorem get_cpu_cycles_pure (a : arch) (eax edx : Z) (st : state) :
  exists v,
    get_cpu_cycles a eax edx st = Ok v st []
    /\ (0 <= v < 2 ^ 64)%Z
    /\ (a <> X86_64 -> v = 0%Z).
Proof.
  destruct a; simpl.
  - eexists. split; [reflexivity |]. split; [| done].
    unfold wrap_uint64, wrap_uint32.
    apply lor_below_pow2; [lia | |]; apply Z.mod_pos_bound; lia.
  - exists 0%Z. split; [reflexivity |]. split; [lia | done].
  - exists 0%Z. split; [reflexivity |]. split; [lia | done].
Qed.

(** * Further properties of the handle *)

Lemma bind_undefined {A B} (m : M A) (f : A -> M B) st a st1 t1 u :
  m st = Ok a st1 t1 -> f a st1 = Undefined u -> bind m f st = Undefined u.
Proof. unfold bind. by intros -> ->. Qed.

Lemma retain_freed st h :
  heap st !! h = None ->
  retain_js_object (HeapPtr h) st = Undefined (BadDeref (HeapPtr h)).
Proof.
  intros Hh. unfold retain_js_object, load_ref_count, load_field, load_obj,
    bind, emit. simpl. by rewrite Hh.
Qed.

Lemma release_freed st h :
  heap st !! h = None ->
  release_js_object (HeapPtr h) st = Undefined (BadDeref (HeapPtr h)).
Proof.
  intros Hh. unfold release_js_object, load_ref_count, load_field, load_obj,
    bind, emit. simpl. by rewrite Hh.
Qed.

Lemma get_data_freed st h :
  heap st !! h = None ->
  js_object_get_data (HeapPtr h) st = Undefined (BadDeref (HeapPtr h)).
Proof.
  intros Hh. unfold js_object_get_data, load_data, load_field, load_obj,
    bind, emit. simpl. by rewrite Hh.
Qed.

(** X1: once the release of a Handle in state Live(1) has deallocated it,
    a further release, a retain or a read through the same pointer is
    undefined: each of them dereferences the freed structure. *)
Theorem use_after_last_release_undefined
    (st : state) (h : loc) (p : ptr) (n : Z) :
  live st h 1 p n ->
  (release_js_object (HeapPtr h) ;; release_js_object (HeapPtr h)) st
  = Undefined (BadDeref (HeapPtr h))
  /\ (release_js_object (HeapPtr h) ;; retain_js_object (HeapPtr h)) st
     = Undefined (BadDeref (HeapPtr h))
  /\ (release_js_object (HeapPtr h) ;; js_object_get_data (HeapPtr h)) st
     = Undefined (BadDeref (HeapPtr h)).
Proof.
  intros (Hh & Hc & Hp).
  assert (release_js_object (HeapPtr h) st
          = Ok tt (mkState (delete h (free_payload p (heap st))) (oracle st))
               [EvCall (CallRelease (HeapPtr h)); EvFree p; EvFree (HeapPtr h)])
    as Hrel by (by eapply release_run_free).
  repeat split; eapply bind_undefined; try exact Hrel.
  - apply release_freed, lookup_delete_eq.
  - apply retain_freed, lookup_delete_eq.
  - apply get_data_freed, lookup_delete_eq.
Qed.

(** X1 on the handle of [hi_state 1]. *)
Lemma use_after_last_release_undefined_witness :
  live (hi_state 1) 1 1 (HeapPtr 2) 3
  /\ (release_js_object (HeapPtr 1) ;; release_js_object (HeapPtr 1)) (hi_state 1)
     = Undefined (BadDeref (HeapPtr 1)).
Proof.
  assert (live (hi_state 1) 1 1 (HeapPtr 2) 3) as H1 by (by vm_compute).
  split; [exact H1 |].
  exact (proj1 (use_after_last_release_undefined _ _ _ _ H1)).
Defined.

(** X3: on a live Handle whose counter is below [INT_MAX], a retain
    followed by a release leaves the whole memory exactly as it was. *)
Theorem retain_then_release_restores
    (st : state) (h : loc) (c : Z) (p : ptr) (n : Z) :
  live st h c p n -> (c < INT_MAX)%Z ->
  (retain_js_object (HeapPtr h) ;; release_js_object (HeapPtr h)) st
  = Ok tt st [EvCall (CallRetain (HeapPtr h)); EvCall (CallRelease (HeapPtr h))].
Proof.
  intros (Hh & Hc & Hp) Hlt. unfold INT_MAX in *.
  assert (wrap_int (c + 1) = (c + 1)%Z) as Hw
    by (apply wrap_int_id; unfold in_int, INT_MIN, INT_MAX; lia).
  assert (wrap_int (c + 1 - 1) = c) as Hw'
    by (rewrite wrap_int_id; unfold in_int, INT_MIN, INT_MAX; lia).
  erewrite bind_ok;
    [ | by eapply retain_run
      | eapply release_run_keep; [apply upd_obj_lookup | reflexivity |] ].
  - rewrite upd_obj_upd_obj, Hw, Hw'. by rewrite upd_obj_id.
  - rewrite Hw, Hw'. lia.
Qed.

(** X3 on the handle of [hi_state 1]. *)
Lemma retain_then_release_restores_witness :
  live (hi_state 1) 1 1 (HeapPtr 2) 3
  /\ (1 < INT_MAX)%Z
  /\ (retain_js_object (HeapPtr 1) ;; release_js_object (HeapPtr 1)) (hi_state 1)
     = Ok tt (hi_state 1)
          [EvCall (CallRetain (HeapPtr 1)); EvCall (CallRelease (HeapPtr 1))].
Proof.
  assert (live (hi_state 1) 1 1 (HeapPtr 2) 3) as H1 by (by vm_compute).
  assert (1 < INT_MAX)%Z as H2 by reflexivity.
  split; [exact H1 |]. split; [exact H2 |].
  exact (retain_then_release_restores _ _ _ _ _ H1 H2).
Defined.

(** ** Interleaved retains and releases *)

Lemma live_upd_obj st h c p n c' :
  live st h c p n -> (1 <= c' <= INT_MAX)%Z ->
  live (upd_obj h (mkJSObject (Some c') (Some p) (Some n)) st) h c' p n.
Proof.
  intros (Hh & Hc & Hp) Hc'. split; [apply upd_obj_lookup |].
  split; [exact Hc' |]. by erewrite payload_ok_upd_obj.
Qed.

Lemma run_ops_run (ops : list handle_op) : forall st h c p n,
  live st h c p n -> stays_live c ops = true ->
  run_ops (HeapPtr h) ops st
  = Ok tt (upd_obj h (mkJSObject (Some (c + balance ops)%Z) (Some p) (Some n)) st)
       (op_event (HeapPtr h) <$> ops).
Proof.
  induction ops as [| o r IH]; intros st h c p n Hlive Hstay.
  - destruct Hlive as (Hh & _). simpl. rewrite Z.add_0_r.
    by rewrite upd_obj_id.
  - pose proof Hlive as (Hh & Hc & Hp).
    cbn [stays_live] in Hstay.
    apply andb_prop in Hstay as [Hrange Hstay].
    apply andb_prop in Hrange as [Hlo Hhi].
    apply Z.leb_le in Hlo, Hhi.
    assert (wrap_int (c + balance [o]) = (c + balance [o])%Z) as Hw
      by (apply wrap_int_id; unfold in_int, INT_MIN, INT_MAX in *; lia).
    pose proof (live_upd_obj _ _ _ _ _ _ Hlive (conj Hlo Hhi)) as Hlive'.
    assert (run_op (HeapPtr h) o st
            = Ok tt
                 (upd_obj h
                    (mkJSObject (Some (c + balance [o])%Z) (Some p) (Some n)) st)
                 [op_event (HeapPtr h) o]) as Hstep.
    { destruct o.
      - change (balance [OpRetain]) with 1%Z in *. cbn [run_op op_event].
        erewrite retain_run by done. by rewrite Hw.
      - change (balance [OpRelease]) with (-1)%Z in *. cbn [run_op op_event].
        replace (c + -1)%Z with (c - 1)%Z in * by lia.
        erewrite release_run_keep; [| done | reflexivity | rewrite Hw; lia].
        by rewrite Hw. }
    cbn [run_ops].
    rewrite (bind_ok _ _ _ _ _ _ _ _ _ Hstep (IH _ _ _ _ _ Hlive' Hstay)).
    rewrite upd_obj_upd_obj.
    replace (c + balance [o] + balance r)%Z with (c + balance (o :: r))%Z
      by (destruct o; simpl; lia).
    reflexivity.
Qed.

Lemma stays_live_range (ops : list handle_op) : forall c,
  (1 <= c <= INT_MAX)%Z -> stays_live c ops = true ->
  (1 <= c + balance ops <= INT_MAX)%Z.
Proof.
  induction ops as [| o r IH]; intros c Hc Hstay.
  - simpl. lia.
  - cbn [stays_live] in Hstay.
    apply andb_prop in Hstay as [Hrange Hstay].
    apply andb_prop in Hrange as [Hlo Hhi]. apply Z.leb_le in Hlo, Hhi.
    specialize (IH _ (conj Hlo Hhi) Hstay).
    replace (c + balance (o :: r))%Z with (c + balance [o] + balance r)%Z
      by (destruct o; simpl; lia).
    exact IH.
Qed.

Lemma frees_op_events (obj : ptr) (ops : list handle_op) :
  frees (op_event obj <$> ops) = [].
Proof. induction ops as [| [] r IH]; simpl; done. Qed.

(** X2: on a live Handle with counter c, any interleaving of retains and
    releases that keeps the counter between 1 and [INT_MAX] returns with
    the Handle live, its counter c plus the retains minus the releases,
    its payload pointer, size and payload untouched, and nothing
    deallocated. *)
Theorem interleaved_ops_keep_handle_live
    (ops : list handle_op) (st : state) (h : loc) (c : Z) (p : ptr) (n : Z) :
  live st h c p n -> stays_live c ops = true ->
  exists st',
    run_ops (HeapPtr h) ops st = Ok tt st' (op_event (HeapPtr h) <$> ops)
    /\ live st' h (c + balance ops) p n
    /\ frame st st' h p n
    /\ frees (op_event (HeapPtr h) <$> ops) = [].
Proof.
  intros Hlive Hstay. eexists. split; [by apply run_ops_run |].
  split; [| split; [by eapply frame_upd_obj | apply frees_op_events]].
  apply (live_upd_obj _ _ _ _ _ _ Hlive).
  destruct Hlive as (_ & Hc & _). by apply stays_live_range.
Qed.

(** X2 on the handle of [hi_state 1], for retain, retain, release,
    retain, release: the counter ends at 2. *)
Lemma interleaved_ops_keep_handle_live_witness :
  live (hi_state 1) 1 1 (HeapPtr 2) 3
  /\ stays_live 1 [OpRetain; OpRetain; OpRelease; OpRetain; OpRelease] = true
  /\ exists st',
       run_ops (HeapPtr 1) [OpRetain; OpRetain; OpRelease; OpRetain; OpRelease]
         (hi_state 1)
       = Ok tt st'
            (op_event (HeapPtr 1)
               <$> [OpRetain; OpRetain; OpRelease; OpRetain; OpRelease])
       /\ live st' 1 2 (HeapPtr 2) 3.
Proof.
  assert (live (hi_state 1) 1 1 (HeapPtr 2) 3) as H1 by (by vm_compute).
  assert (stays_live 1 [OpRetain; OpRetain; OpRelease; OpRetain; OpRelease]
          = true) as H2 by reflexivity.
  split; [exact H1 |]. split; [exact H2 |].
  destruct (interleaved_ops_keep_handle_live _ _ _ _ _ _ H1 H2)
    as (st' & Hrun & Hlive & _).
  exists st'. split; [exact Hrun | exact Hlive].
Defined.

(** X4: from a Handle returned by [create_js_object], any interleaving of
    retains and releases that keeps the counter between 1 and [INT_MAX]
    and ends with as many releases as retains, followed by one more
    release, deallocates the payload and then the structure, each exactly
    once, and leaves the heap that [create_js_object] started from. *)
Theorem balanced_ops_then_release_free_once
    (ops : list handle_op) (s : list byte) (st : state) (h : loc)
    (st1 : state) (tr1 : list event) :
  create_js_object s st = Ok (HeapPtr h) st1 tr1 ->
  stays_live 1 ops = true ->
  balance ops = 0%Z ->
  exists p st2 tr2,
    (run_ops (HeapPtr h) ops ;; release_js_object (HeapPtr h)) st1
    = Ok tt st2 tr2
    /\ heap st2 = heap st
    /\ frees tr2 = [EvFree p; EvFree (HeapPtr h)].
Proof.
  intros Hcreate Hstay Hbal.
  destruct (create_inv _ _ _ _ _ Hcreate)
    as (len & p & _ & _ & Hlive & Hback).
  pose proof (run_ops_run _ _ _ _ _ _ Hlive Hstay) as Hrun.
  rewrite Hbal in Hrun. exists p. eexists _, _. split; [| split].
  - eapply bind_ok; [exact Hrun |].
    destruct Hlive as (Hh & _ & Hp).
    eapply release_run_free;
      [apply upd_obj_lookup | reflexivity | reflexivity | by vm_compute |].
    by erewrite payload_ok_upd_obj.
  - destruct Hlive as (Hh & _). simpl.
    by erewrite delete_free_payload_upd.
  - by rewrite frees_app, frees_op_events.
Qed.

(** X4 for the string [hi] in the empty memory and the calls retain,
    release, retain, retain, release, release. *)
Lemma balanced_ops_then_release_free_once_witness :
  exists h st1 tr1,
    create_js_object (c_string [x68; x69]) (init_state []) = Ok (HeapPtr h) st1 tr1
    /\ stays_live 1 [OpRetain; OpRelease; OpRetain; OpRetain; OpRelease; OpRelease]
       = true
    /\ balance [OpRetain; OpRelease; OpRetain; OpRetain; OpRelease; OpRelease]
       = 0%Z
    /\ exists p st2 tr2,
         (run_ops (HeapPtr h)
            [OpRetain; OpRelease; OpRetain; OpRetain; OpRelease; OpRelease] ;;
          release_js_object (HeapPtr h)) st1
         = Ok tt st2 tr2
         /\ heap st2 = ∅
         /\ frees tr2 = [EvFree p; EvFree (HeapPtr h)].
Proof.
  eexists _, _, _. split; [reflexivity |].
  split; [reflexivity |]. split; [reflexivity |].
  exact (balanced_ops_then_release_free_once
           [OpRetain; OpRelease; OpRetain; OpRetain; OpRelease; OpRelease]
           (c_string [x68; x69]) (init_state []) _ _ _
           eq_refl eq_refl eq_refl).
Defined.

(** ** What [create_js_object] builds *)

Lemma create_inv_granted d st p st1 tr :
  create_js_object (c_string d) st = Ok p st1 tr ->
  no_alloc_failure tr ->
  exists h l,
    p = HeapPtr h /\ l <> h
    /\ heap st !! h = None /\ heap st !! l = None
    /\ heap st1
       = <[l := BBytes (Some <$> c_string (until_nul d))]>
           (<[h := BObj (mkJSObject (Some 1%Z) (Some (HeapPtr l))
                           (Some (Z.of_nat (length (c_string (until_nul d))))))]>
              (heap st)).
Proof.
  intros Hrun Hno. pose proof (c_strlen_c_string d) as Hlen.
  destruct (hd true (oracle st)) eqn:Ho.
  - destruct (hd true (tail (oracle st))) eqn:Ho'.
    + rewrite (create_run_ok _ _ _ Ho Ho' Hlen) in Hrun.
      injection Hrun as <- <- <-.
      eexists _, _. split; [reflexivity |]. split; [apply fresh_buf_ne |].
      split; [apply fresh_obj_None |]. split; [apply fresh_buf_None |].
      simpl.
      replace (Z.to_nat (Z.of_nat (length (until_nul d)) + 1))
        with (S (length (until_nul d))) by lia.
      rewrite take_c_string. unfold c_string at 3. rewrite length_app. simpl.
      replace (Z.of_nat (length (until_nul d) + 1))
        with (Z.of_nat (length (until_nul d)) + 1)%Z by lia.
      reflexivity.
    + rewrite (create_run_no_buf _ _ _ Ho Ho' Hlen) in Hrun.
      injection Hrun as <- <- <-. by vm_compute in Hno.
  - rewrite create_run_no_obj in Hrun by done.
    injection Hrun as <- <- <-. by vm_compute in Hno.
Qed.

(** X5: whatever it returns, [create_js_object] leaves every block that
    was allocated before the call as it was; the Handle it returns is a
    block that was not allocated before; and when it returns a null
    pointer the heap is unchanged. *)
Theorem create_preserves_existing_blocks
    (s : list byte) (st : state) (p : ptr) (st1 : state) (tr : list event) :
  create_js_object s st = Ok p st1 tr ->
  (forall (l : loc) (b : block),
      heap st !! l = Some b -> heap st1 !! l = Some b)
  /\ (forall h : loc, p = HeapPtr h -> heap st !! h = None)
  /\ (p = NULL -> heap st1 = heap st).
Proof.
  intros Hrun.
  pose proof (fresh_obj_None (heap st)) as Hh.
  pose proof (fresh_buf_None (heap st)) as Hl.
  destruct (hd true (oracle st)) eqn:Ho;
    [| rewrite create_run_no_obj in Hrun by done;
       injection Hrun as <- <- <-; by repeat split].
  destruct (c_strlen s) as [len |] eqn:Hlen;
    [| by rewrite create_run_overrun in Hrun].
  destruct (hd true (tail (oracle st))) eqn:Ho'.
  - rewrite (create_run_ok _ _ _ Ho Ho' Hlen) in Hrun.
    injection Hrun as <- <- <-. split; [| split].
    + intros l b Hb. simpl.
      rewrite !lookup_insert_ne by (intros <-; congruence). exact Hb.
    + by intros h [= <-].
    + discriminate.
  - rewrite (create_run_no_buf _ _ _ Ho Ho' Hlen) in Hrun.
    injection Hrun as <- <- <-. split; [| split].
    + intros l b Hb. simpl.
      rewrite lookup_insert_ne by (intros <-; congruence). exact Hb.
    + by intros h [= <-].
    + discriminate.
Qed.

(** X5 in [hi_state 1]: the new Handle is at a fresh address and the
    handle and array already there are untouched. *)
Lemma create_preserves_existing_blocks_witness :
  exists p st1 tr,
    create_js_object (c_string [x61]) (hi_state 1) = Ok p st1 tr
    /\ heap st1 !! 1%positive = heap (hi_state 1) !! 1%positive
    /\ heap st1 !! 2%positive = heap (hi_state 1) !! 2%positive
    /\ p = HeapPtr 3.
Proof.
  eexists _, _, _. split; [reflexivity |].
  pose proof (create_preserves_existing_blocks (c_string [x61]) (hi_state 1)
                _ _ _ eq_refl) as (Hkeep & _ & _).
  split; [| split; [| reflexivity]].
  - exact (Hkeep 1%positive _ eq_refl).
  - exact (Hkeep 2%positive _ eq_refl).
Defined.

(** X6: when no allocation is refused, the Handle that
    [create_js_object] returns for the string [d] has a counter of 1, a
    size field equal to the length of its payload array, and an array made
    of the characters of [d] before its first zero byte followed by one
    terminator, every cell written. *)
Theorem create_size_matches_payload
    (d : list byte) (st : state) (p : ptr) (st1 : state) (tr : list event) :
  create_js_object (c_string d) st = Ok p st1 tr ->
  no_alloc_failure tr ->
  exists h l cells,
    p = HeapPtr h
    /\ heap st1 !! h
       = Some (BObj (mkJSObject (Some 1%Z) (Some (HeapPtr l))
                       (Some (Z.of_nat (length cells)))))
    /\ heap st1 !! l = Some (BBytes cells)
    /\ cells = Some <$> (until_nul d ++ [x00]).
Proof.
  intros Hrun Hno.
  destruct (create_inv_granted _ _ _ _ _ Hrun Hno)
    as (h & l & -> & Hne & _ & _ & Hheap).
  exists h, l, (Some <$> c_string (until_nul d)).
  split; [reflexivity |]. rewrite Hheap. split; [| split; [| reflexivity]].
  - rewrite lookup_insert_ne, lookup_insert_eq by done.
    by rewrite length_fmap.
  - apply lookup_insert_eq.
Qed.

(** X6 for the bytes [a], 0, [b]: the array holds [a] and the terminator,
    and the size field is 2. *)
Lemma create_size_matches_payload_witness :
  exists p st1 tr,
    create_js_object (c_string [x61; x00; x62]) (init_state []) = Ok p st1 tr
    /\ no_alloc_failure tr
    /\ exists h l,
         p = HeapPtr h
         /\ heap st1 !! h
            = Some (BObj (mkJSObject (Some 1%Z) (Some (HeapPtr l)) (Some 2%Z)))
         /\ heap st1 !! l = Some (BBytes [Some x61; Some x00]).
Proof.
  eexists _, _, _. split; [reflexivity |]. split; [reflexivity |].
  destruct (create_size_matches_payload [x61; x00; x62] (init_state [])
              _ _ _ eq_refl eq_refl)
    as (h & l & cells & Hp & Hh & Hl & ->).
  exists h, l. split; [exact Hp |]. split; [exact Hh | exact Hl].
Defined.

Lemma get_data_run st h o p :
  heap st !! h = Some (BObj o) -> data o = Some p ->
  js_object_get_data (HeapPtr h) st
  = Ok p st [EvCall (CallGetData (HeapPtr h))].
Proof.
  intros Hh Hd. unfold js_object_get_data. simpl.
  eapply (bind_ok _ _ _ _ _ [_]); [reflexivity |].
  by eapply load_field_run.
Qed.

(** X7: when no allocation is refused, after [create_js_object] on the
    string [d] and any interleaving of retains and releases that keeps the
    counter between 1 and [INT_MAX], [js_object_get_data] returns a
    pointer to the characters of [d] before its first zero byte, and
    changes nothing. *)
Theorem read_after_interleaved_ops
    (ops : list handle_op) (d : list byte) (st : state)
    (p : ptr) (st1 : state) (tr1 : list event) :
  create_js_object (c_string d) st = Ok p st1 tr1 ->
  no_alloc_failure tr1 ->
  stays_live 1 ops = true ->
  exists st2 q,
    run_ops p ops st1 = Ok tt st2 (op_event p <$> ops)
    /\ js_object_get_data p st2 = Ok q st2 [EvCall (CallGetData p)]
    /\ c_str st2 q = Some (until_nul d).
Proof.
  intros Hrun Hno Hstay.
  destruct (create_inv_granted _ _ _ _ _ Hrun Hno)
    as (h & l & -> & Hne & _ & _ & Hheap).
  assert (live st1 h 1 (HeapPtr l)
            (Z.of_nat (length (c_string (until_nul d))))) as Hlive.
  { unfold live, payload_ok. rewrite Hheap.
    rewrite lookup_insert_ne, !lookup_insert_eq by done.
    split; [done |]. split; [unfold INT_MAX; lia | done]. }
  assert (c_str st1 (HeapPtr l) = Some (until_nul d)) as Hstr.
  { simpl. rewrite Hheap, lookup_insert_eq. apply read_cells_c_string. }
  eexists _, (HeapPtr l). split; [by eapply run_ops_run |]. split.
  - eapply get_data_run; [apply upd_obj_lookup | reflexivity].
  - destruct Hlive as (Hh & _). by erewrite c_str_upd_obj.
Qed.

(** X7 for the string [hi]: after retain, retain, release, release the
    string read is still [hi]. *)
Lemma read_after_interleaved_ops_witness :
  exists p st1 tr1,
    create_js_object (c_string [x68; x69]) (init_state []) = Ok p st1 tr1
    /\ no_alloc_failure tr1
    /\ stays_live 1 [OpRetain; OpRetain; OpRelease; OpRelease] = true
    /\ exists st2 q,
         run_ops p [OpRetain; OpRetain; OpRelease; OpRelease] st1
         = Ok tt st2 (op_event p <$> [OpRetain; OpRetain; OpRelease; OpRelease])
         /\ js_object_get_data p st2 = Ok q st2 [EvCall (CallGetData p)]
         /\ c_str st2 q = Some [x68; x69].
Proof.
  eexists _, _, _. split; [reflexivity |]. split; [reflexivity |].
  split; [reflexivity |].
  exact (read_after_interleaved_ops [OpRetain; OpRetain; OpRelease; OpRelease]
           [x68; x69] (init_state []) _ _ _ eq_refl eq_refl eq_refl).
Defined.

(** ** Two handles *)

Lemma lookup_after_free (m : gmap positive block) h p k :
  k <> h -> p <> HeapPtr k ->
  delete h (free_payload p m) !! k = m !! k.
Proof.
  intros Hkh Hpk. rewrite lookup_delete_ne by done.
  destruct p as [| l | s]; simpl; try done.
  apply lookup_delete_ne. congruence.
Qed.

(** X8: a retain or a release on one live Handle, the release that
    deallocates it included, leaves every other live Handle with another
    payload array as it was: same counter, payload pointer and size, and
    the same string behind its payload pointer. *)
Theorem other_handle_unaffected
    (o : handle_op) (st : state)
    (h1 : loc) (c1 : Z) (p1 : ptr) (n1 : Z)
    (h2 : loc) (c2 : Z) (p2 : ptr) (n2 : Z) :
  live st h1 c1 p1 n1 -> live st h2 c2 p2 n2 ->
  h1 <> h2 -> (p1 = NULL \/ p1 <> p2) ->
  exists st' tr,
    run_op (HeapPtr h1) o st = Ok tt st' tr
    /\ live st' h2 c2 p2 n2
    /\ c_str st' p2 = c_str st p2.
Proof.
  intros (Hh1 & Hc1 & Hp1) (Hh2 & Hc2 & Hp2) Hne Hpay.
  assert (forall o', live (upd_obj h1 o' st) h2 c2 p2 n2
                     /\ c_str (upd_obj h1 o' st) p2 = c_str st p2) as Hupd.
  { intros o'. split; [| by eapply c_str_upd_obj].
    split; [by simpl; rewrite lookup_insert_ne |].
    split; [done |]. by erewrite payload_ok_upd_obj. }
  destruct o; cbn [run_op].
  - eexists _, _. split; [by eapply retain_run |]. apply Hupd.
  - destruct (Z.eq_dec (wrap_int (c1 - 1)) 0%Z) as [Hz | Hnz].
    + eexists _, _. split; [by eapply release_run_free |].
      assert (p1 <> HeapPtr h2) as Hp1h2.
      { intros ->. unfold payload_ok in Hp1. by rewrite Hh2 in Hp1. }
      assert (forall l2, p2 = HeapPtr l2 ->
                delete h1 (free_payload p1 (heap st)) !! l2 = heap st !! l2)
        as Hbuf.
      { intros l2 ->. apply lookup_after_free.
        - intros ->. unfold payload_ok in Hp2. by rewrite Hh1 in Hp2.
        - destruct Hpay as [-> | Hpay]; [discriminate | exact Hpay]. }
      split; [split; [| split; [done |]] |].
      * simpl. by rewrite lookup_after_free.
      * destruct p2 as [| l2 | s2]; simpl in *; try done.
        by rewrite Hbuf.
      * destruct p2 as [| l2 | s2]; simpl in *; try done.
        by rewrite Hbuf.
    + eexists _, _. split; [by eapply release_run_keep |]. apply Hupd.
Qed.

(** X8 in [two_handles_state]: the release that deallocates the handle at
    address 1 leaves the handle at address 3 live, its string still [a]. *)
Lemma other_handle_unaffected_witness :
  live two_handles_state 1 1 (HeapPtr 2) 3
  /\ live two_handles_state 3 1 (HeapPtr 4) 2
  /\ 1%positive <> 3%positive
  /\ (HeapPtr 2 = NULL \/ HeapPtr 2 <> HeapPtr 4)
  /\ exists st' tr,
       run_op (HeapPtr 1) OpRelease two_handles_state = Ok tt st' tr
       /\ live st' 3 1 (HeapPtr 4) 2
       /\ c_str st' (HeapPtr 4) = Some [x61].
Proof.
  assert (live two_handles_state 1 1 (HeapPtr 2) 3) as H1 by (by vm_compute).
  assert (live two_handles_state 3 1 (HeapPtr 4) 2) as H2 by (by vm_compute).
  assert (1%positive <> 3%positive) as H3 by discriminate.
  assert (HeapPtr 2 = NULL \/ HeapPtr 2 <> HeapPtr 4) as H4
    by (right; discriminate).
  split; [exact H1 |]. split; [exact H2 |]. split; [exact H3 |].
  split; [exact H4 |].
  destruct (other_handle_unaffected OpRelease _ _ _ _ _ _ _ _ _ H1 H2 H3 H4)
    as (st' & tr & Hrun & Hlive & Hstr).
  exists st', tr. split; [exact Hrun |]. split; [exact Hlive |].
  rewrite Hstr. reflexivity.
Defined.

(** X9: when the structure is allocated and the payload buffer is
    refused, the Handle that [create_js_object] returns reads as a null
    pointer (not as the literal [null], and not as a string), and its one
    release calls [free] on the null payload pointer and deallocates the
    structure: the heap is again the one before the create. *)
Theorem handle_without_buffer_reads_null_and_frees
    (d : list byte) (m : gmap positive block) (rest : list bool) :
  (obj <- create_js_object (c_string d) ;;
   q <- js_object_get_data obj ;;
   release_js_object obj ;;
   ret (obj, q)) (mkState m (true :: false :: rest))
  = Ok (HeapPtr (fresh (dom m)), NULL) (mkState m rest)
       [EvCall (CallCreate (c_string d));
        EvMalloc ReqJSObject (HeapPtr (fresh (dom m)));
        EvMalloc (ReqBytes (Z.of_nat (length (until_nul d)) + 1)) NULL;
        EvCall (CallGetData (HeapPtr (fresh (dom m))));
        EvCall (CallRelease (HeapPtr (fresh (dom m))));
        EvFree NULL; EvFree (HeapPtr (fresh (dom m)))].
Proof.
  pose proof (create_run_no_buf (c_string d) (mkState m (true :: false :: rest))
                _ eq_refl eq_refl (c_strlen_c_string d)) as Hcr.
  simpl in Hcr.
  erewrite bind_run_eq by exact Hcr.
  erewrite bind_run_eq
    by (eapply get_data_run; [apply lookup_insert_eq | reflexivity]).
  erewrite bind_run_eq
    by (eapply release_run_free;
        [apply lookup_insert_eq | reflexivity | reflexivity
        | by vm_compute | reflexivity]).
  simpl. rewrite delete_insert_eq, delete_id by apply fresh_obj_None.
  reflexivity.
Qed.

(** ** The cycle counter on x86_64 *)

Lemma land_low_shifted (x y : Z) :
  Z.land (x mod 2 ^ 32) (Z.shiftl y 32) = 0%Z.
Proof.
  apply Z.bits_inj'. intros i Hi.
  rewrite Z.land_spec, Z.bits_0.
  destruct (Z_lt_dec i 32) as [Hlt | Hge].
  - rewrite (Z.shiftl_spec_low y 32 i) by lia. apply andb_false_r.
  - rewrite Z.mod_pow2_bits_high by lia. reflexivity.
Qed.

(** X10: on x86_64 the value of [get_cpu_cycles] is the 64-bit number
    whose high half is the [uint32_t] taken from [edx] and whose low half
    is the one taken from [eax]: neither half disturbs the other and
    nothing is lost in the shift. *)
Theorem get_cpu_cycles_combines_halves (eax edx : Z) (st : state) :
  get_cpu_cycles X86_64 eax edx st
  = Ok (edx mod 2 ^ 32 * 2 ^ 32 + eax mod 2 ^ 32)%Z st [].
Proof.
  unfold get_cpu_cycles, ret, wrap_uint64, wrap_uint32.
  pose proof (Z.mod_pos_bound eax (2 ^ 32)) as Hlo.
  pose proof (Z.mod_pos_bound edx (2 ^ 32)) as Hhi.
  rewrite (Z.mod_small (eax mod 2 ^ 32) (2 ^ 64)) by lia.
  rewrite (Z.mod_small (edx mod 2 ^ 32) (2 ^ 64)) by lia.
  rewrite Z.shiftl_mul_pow2 by lia.
  rewrite (Z.mod_small (edx mod 2 ^ 32 * 2 ^ 32) (2 ^ 64)) by lia.
  rewrite <- (Z.shiftl_mul_pow2 (edx mod 2 ^ 32) 32) by lia.
  f_equal.
  pose proof (Z.add_lor_land (eax mod 2 ^ 32) (Z.shiftl (edx mod 2 ^ 32) 32))
    as Hadd.
  rewrite land_low_shifted in Hadd. lia.
Qed.

(** ** Running the demo again and again *)

Lemma demo_restores_heap (st : state) :
  exists r st' tr,
    perform_low_level_demo st = Ok r st' tr /\ heap st' = heap st.
Proof.
  assert (c_strlen demo_literal = Some 31%Z) as Hlen by reflexivity.
  unfold perform_low_level_demo.
  destruct (hd true (oracle st)) eqn:Ho.
  - assert (exists h st1 tr1,
              create_js_object demo_literal st = Ok (HeapPtr h) st1 tr1)
      as (h & st1 & tr1 & Hcr).
    { destruct (hd true (tail (oracle st))) eqn:Ho'; eexists _, _, _.
      - by apply (create_run_ok _ _ _ Ho Ho' Hlen).
      - by apply (create_run_no_buf _ _ _ Ho Ho' Hlen). }
    destruct (create_inv _ _ _ _ _ Hcr) as (len & p & _ & _ & Hlive & Hback).
    erewrite bind_run_eq by exact Hcr.
    cbn [is_null]. rewrite (demo_body_run _ _ _ _ Hlive).
    eexists _, _, _. split; [reflexivity | exact Hback].
  - erewrite bind_run_eq by (by apply create_run_no_obj).
    eexists _, _, _. split; [reflexivity | reflexivity].
Qed.

(** X12: any number of calls of [perform_low_level_demo] in a row,
    whatever the allocator answers to each of them and whatever the heap
    holds, run without undefined behaviour and leave the heap exactly as
    it was: no call leaks a block or frees one of the caller's. *)
Theorem demo_repeated_restores_heap (n : N) (st : state) :
  exists st' tr,
    times n (perform_low_level_demo ;; ret tt) st = Ok tt st' tr
    /\ heap st' = heap st.
Proof.
  revert st. induction n as [| n IH] using N.peano_ind; intros st.
  - exists st, []. split; reflexivity.
  - destruct (demo_restores_heap st) as (r & st1 & tr1 & Hrun & Hheap).
    destruct (IH st1) as (st2 & tr2 & Hrest & Hheap2).
    rewrite times_succ. eexists _, _. split.
    + eapply bind_ok; [| exact Hrest].
      eapply bind_ok; [exact Hrun | reflexivity].
    + congruence.
Qed.

(** ** The system information string *)

Lemma system_info_text_length (a : arch) (tc : toolchain) :
  length (system_info_text a tc)
  <= 119 + length (until_nul (compiler_version tc)).
Proof.
  unfold system_info_text, compiler_name.
  generalize (until_nul (compiler_version tc)). intros v.
  destruct a, (has_GNUC tc), (has_clang tc);
    rewrite !length_app; simpl; lia.
Qed.

(** X11: the string [get_system_info] leaves in its 256-byte buffer never
    has more than 255 characters, whatever the version string of the
    compiler; it always starts with the runtime line, the architecture
    line and the name of the compiler; and it is the whole four-line text,
    nothing cut, whenever the version string has at most 136
    characters. *)
Theorem get_system_info_fits_buffer (a : arch) (tc : toolchain) :
  length (get_system_info a tc) <= 255
  /\ (exists rest,
        get_system_info a tc
        = list_byte_of_string "UnleashedJS Runtime v1.0.0" ++ [x0a]
          ++ list_byte_of_string "Architecture: " ++ arch_name a ++ [x0a]
          ++ list_byte_of_string "Compiler: " ++ compiler_name tc
          ++ list_byte_of_string " " ++ rest)
  /\ (length (until_nul (compiler_version tc)) <= 136 ->
      get_system_info a tc = system_info_text a tc).
Proof.
  split; [| split].
  - unfold get_system_info, snprintf. rewrite length_take. lia.
  - unfold get_system_info, snprintf, system_info_text, compiler_name.
    generalize (until_nul (compiler_version tc)). intros v.
    destruct a, (has_GNUC tc), (has_clang tc); simpl; eexists; reflexivity.
  - intros Hv. unfold get_system_info, snprintf. apply take_ge.
    pose proof (system_info_text_length a tc). lia.
Qed.

(** X11 for GCC 13.2.0 on x86_64: the whole text is returned. *)
Lemma get_system_info_fits_buffer_witness :
  let tc := mkToolchain true false (list_byte_of_string "13.2.0") [] in
  length (until_nul (compiler_version tc)) <= 136
  /\ get_system_info X86_64 tc
     = list_byte_of_string "UnleashedJS Runtime v1.0.0" ++ [x0a]
       ++ list_byte_of_string "Architecture: x86_64" ++ [x0a]
       ++ list_byte_of_string "Compiler: GCC 13.2.0" ++ [x0a]
       ++ list_byte_of_string
            "Features: ORC Memory Management, Native Performance".
Proof.
  intros tc.
  assert (length (until_nul (compiler_version tc)) <= 136) as Hv
    by (vm_compute; lia).
  split; [exact Hv |].
  rewrite (proj2 (proj2 (get_system_info_fits_buffer X86_64 tc)) Hv).
  reflexivity.
Defined.

(** ** A divisor that is not a number *)

Lemma div_by_nan (a : float) : (a / nan)%float = nan.
Proof.
  apply Prim2SF_inj. rewrite div_spec.
  change (Prim2SF nan) with SpecFloat.S754_nan.
  destruct (Prim2SF a); reflexivity.
Qed.

(** X13: the test [b != 0] of the dispatcher lets a NaN divisor through:
    for the selector 3 and a divisor that is not a number the result is
    not the fallback 0 but NaN, whatever the dividend. *)
Theorem fast_math_operation_nan_divisor (a : float) :
  fast_math_operation a nan 3 = nan.
Proof. unfold fast_math_operation. simpl. apply div_by_nan. Qed.

(** ** The pointer that a read returns *)

(** X14: [js_object_get_data] returns the Handle's own payload array, not
    a copy: once the release of a Handle in state Live(1) has returned,
    the pointer read before it no longer leads to a string. *)
Theorem read_pointer_dangles_after_last_release
    (st : state) (h l : loc) (n : Z) :
  live st h 1 (HeapPtr l) n ->
  exists st',
    (q <- js_object_get_data (HeapPtr h) ;;
     release_js_object (HeapPtr h) ;;
     ret q) st
    = Ok (HeapPtr l) st'
         [EvCall (CallGetData (HeapPtr h)); EvCall (CallRelease (HeapPtr h));
          EvFree (HeapPtr l); EvFree (HeapPtr h)]
    /\ heap st' !! l = None
    /\ c_str st' (HeapPtr l) = None.
Proof.
  intros (Hh & Hc & Hp).
  assert (l <> h) as Hne.
  { intros ->. unfold payload_ok in Hp. by rewrite Hh in Hp. }
  erewrite bind_run_eq by (eapply get_data_run; [exact Hh | reflexivity]).
  erewrite bind_run_eq by (by eapply release_run_free).
  eexists. split; [reflexivity |].
  assert (delete h (free_payload (HeapPtr l) (heap st)) !! l = None) as Hgone
    by (simpl; by rewrite lookup_delete_ne, lookup_delete_eq).
  split; [exact Hgone |]. simpl in *. by rewrite Hgone.
Qed.

(** X14 on the handle of [hi_state 1]. *)
Lemma read_pointer_dangles_after_last_release_witness :
  live (hi_state 1) 1 1 (HeapPtr 2) 3
  /\ exists st',
       (q <- js_object_get_data (HeapPtr 1) ;;
        release_js_object (HeapPtr 1) ;;
        ret q) (hi_state 1)
       = Ok (HeapPtr 2) st'
            [EvCall (CallGetData (HeapPtr 1)); EvCall (CallRelease (HeapPtr 1));
             EvFree (HeapPtr 2); EvFree (HeapPtr 1)]
       /\ c_str st' (HeapPtr 2) = None.
Proof.
  assert (live (hi_state 1) 1 1 (HeapPtr 2) 3) as H1 by (by vm_compute).
  split; [exact H1 |].
  destruct (read_pointer_dangles_after_last_release _ _ _ _ H1)
    as (st' & Hrun & _ & Hstr).
  exists st'. split; [exact Hrun | exact Hstr].
Defined.
